(** * uxf_aws_download: a shallow embedding and its verified properties

    The script downloads Unity Experiment Framework (UXF) tables from
    DynamoDB, unpacks per-trial lists into rows with pandas and writes one
    CSV file per table.  This file embeds [src/uxf_aws_download.py]:

    - Python strings are [string]; [str.format] with [{:s}] fields is
      string concatenation;
    - [time.strftime] is an interpreter for the directives the script uses;
    - the DynamoDB resource is a read-only store of tables, a table being
      the function from an optional [ExclusiveStartKey] to a response;
    - the effects of the script (console, working directory, sessions, scan
      calls, files written) are threaded through a small monad that carries
      the process state and emits a chronological list of events, and in
      which a Python exception is a result of its own;
    - the [while] loop of the scanner runs on fuel, running out of it being
      a third kind of result ([Diverge]);
    - a pandas [DataFrame] is an index (a list of label tuples) and a list
      of named columns. *)

From Stdlib Require Import String Ascii List ZArith Lia Bool Arith
  DecimalString Permutation.
Import ListNotations.
Open Scope string_scope.
Open Scope list_scope.


(** ** Strings *)

Definition chr (n : nat) : string := String (ascii_of_nat n) EmptyString.

(** The double quote, the tabulator and the newline of the script's literals. *)
Definition dquote : string := chr 34.
Definition tab : string := chr 9.
Definition newline : string := chr 10.

(** [str(n)] and [{:d}] for a non-negative integer. *)
Definition str_of_nat (n : nat) : string := NilZero.string_of_uint (Nat.to_uint n).

(** A decimal number padded with zeros to two digits ([%02d]). *)
Definition pad2 (n : nat) : string :=
  if (n <? 10)%nat then "0" ++ str_of_nat n else str_of_nat n.

(** ** [time] *)

(** The fields of [time.struct_time] that the script's format reads. *)
Record struct_time := {
  tm_year : nat;
  tm_mon : nat;   (* 1..12 *)
  tm_mday : nat;  (* 1..31 *)
  tm_hour : nat;  (* 0..23 *)
  tm_min : nat;   (* 0..59 *)
  tm_sec : nat    (* 0..61 *)
}.

(** One conversion directive of [strftime]: [%Y] year with century, [%m]
    month, [%d] day of the month, [%H] hour, [%M] minute, [%S] second.
    Any other character is kept behind its percent sign. *)
Definition directive (d : ascii) (t : struct_time) : string :=
  if Ascii.eqb d "Y" then str_of_nat (tm_year t)
  else if Ascii.eqb d "m" then pad2 (tm_mon t)
  else if Ascii.eqb d "d" then pad2 (tm_mday t)
  else if Ascii.eqb d "H" then pad2 (tm_hour t)
  else if Ascii.eqb d "M" then pad2 (tm_min t)
  else if Ascii.eqb d "S" then pad2 (tm_sec t)
  else String "%" (String d EmptyString).

(** [time.strftime(fmt, t)]. *)
Fixpoint strftime (fmt : string) (t : struct_time) : string :=
  match fmt with
  | EmptyString => EmptyString
  | String c rest =>
      if Ascii.eqb c "%" then
        match rest with
        | EmptyString => String c EmptyString
        | String d rest' => directive d t ++ strftime rest' t
        end
      else String c (strftime rest t)
  end.

(** ** Names *)

(** [get_table_name(experiment, table, prefix)]:
    ['{:s}.{:s}.{:s}'.format(prefix, experiment, table)]. *)
Definition get_table_name (experiment table prefix : string) : string :=
  prefix ++ "." ++ experiment ++ "." ++ table.

(** The body of [get_output_file_name(experiment, table)] at the reading
    [now] of the clock:
    [t = time.strftime('%Y%m%d_%H%m', time.localtime())] and
    ['{:s}_{:s}_{:s}.csv'.format(experiment, table, t)]. *)
Definition output_file_name_at (now : struct_time) (experiment table : string)
  : string :=
  let t := strftime "%Y%m%d_%H%m" now in
  experiment ++ "_" ++ table ++ "_" ++ t ++ ".csv".

(** ** Items and data frames *)

(** What boto3 hands over for an attribute of an item: a string, a number
    (a [Decimal]) or a list of those.  [SNaN] is the missing value pandas
    fills in. *)
Inductive scalar :=
| SStr (s : string)
| SNum (z : Z)
| SNaN.

Inductive value :=
| Scalar (a : scalar)
| Seq (l : list scalar).

(** An item is a Python [dict] from attribute name to value, in insertion
    order. *)
Definition record := list (string * value).

Definition nan : value := Scalar SNaN.

Definition scalar_eqb (a b : scalar) : bool :=
  match a, b with
  | SStr s, SStr t => String.eqb s t
  | SNum x, SNum y => Z.eqb x y
  | SNaN, SNaN => true
  | _, _ => false
  end.

Fixpoint list_eqb {A} (eqb : A -> A -> bool) (l m : list A) : bool :=
  match l, m with
  | [], [] => true
  | x :: l', y :: m' => eqb x y && list_eqb eqb l' m'
  | _, _ => false
  end.

Definition value_eqb (v w : value) : bool :=
  match v, w with
  | Scalar a, Scalar b => scalar_eqb a b
  | Seq l, Seq m => list_eqb scalar_eqb l m
  | _, _ => false
  end.

(** [Index.equals]: the same labels in the same order. *)
Definition index_eqb (i j : list (list value)) : bool :=
  list_eqb (list_eqb value_eqb) i j.

(** [d.get(f)] on an item. *)
Definition lookup (f : string) (r : record) : option value :=
  match find (fun fv => String.eqb (fst fv) f) r with
  | Some fv => Some (snd fv)
  | None => None
  end.

(** The cell of item [r] in column [f]: missing attributes become NaN. *)
Definition cell (f : string) (r : record) : value :=
  match lookup f r with
  | Some v => v
  | None => nan
  end.

(** The names of a list without repetitions, in order of first occurrence. *)
Fixpoint uniq (l : list string) : list string :=
  match l with
  | [] => []
  | x :: l' => x :: filter (fun y => negb (String.eqb x y)) (uniq l')
  end.

(** A [pandas.DataFrame]: the names of the index levels, one tuple of labels
    per row, and the columns in order, each with one cell per row. *)
Record DataFrame := {
  index_names : list string;
  index : list (list value);
  columns : list (string * list value)
}.

(** A [pandas.Series] as [DataFrame.apply] hands a column over. *)
Record Series := {
  s_index : list (list value);
  s_values : list value
}.

(** [df.shape[0]] *)
Definition shape0 (df : DataFrame) : nat := length (index df).

(** The default index [0, 1, ..., n-1]. *)
Definition RangeIndex (n : nat) : list (list value) :=
  map (fun i => [Scalar (SNum (Z.of_nat i))]) (seq 0 n).

(** [pd.DataFrame.from_records(items)] on a list of dicts: one row per item,
    one column per attribute name in order of first occurrence, NaN where an
    item lacks the attribute. *)
Definition from_records (items : list record) : DataFrame :=
  {| index_names := [];
     index := RangeIndex (length items);
     columns := map (fun f => (f, map (cell f) items))
                    (uniq (flat_map (map fst) items)) |}.

(** The Python exceptions the script can meet. *)
Inductive exn :=
| ResourceNotFoundException
| KeyError
| ValueError
| SystemExit (code : Z).

Definition has_column (f : string) (df : DataFrame) : bool :=
  existsb (String.eqb f) (map fst (columns df)).

Definition column (f : string) (df : DataFrame) : list value :=
  match find (fun c => String.eqb (fst c) f) (columns df) with
  | Some c => snd c
  | None => []
  end.

(** [df.set_index(keys)]: [KeyError] when a key is not a column; otherwise
    the key columns leave the frame and their cells label the rows. *)
Definition set_index (keys : list string) (df : DataFrame) : exn + DataFrame :=
  match filter (fun k => negb (has_column k df)) keys with
  | _ :: _ => inl KeyError
  | [] =>
      inr {| index_names := keys;
             index := map (fun i => map (fun k => nth i (column k df) nan) keys)
                          (seq 0 (shape0 df));
             columns := filter (fun c => negb (existsb (String.eqb (fst c)) keys))
                               (columns df) |}
  end.

(** What one cell turns into under [Series.explode]: a list its elements,
    an empty list one NaN, a scalar itself. *)
Definition explode_cell (v : value) : list value :=
  match v with
  | Scalar a => [Scalar a]
  | Seq [] => [nan]
  | Seq l => map Scalar l
  end.

(** [pd.Series.explode]: every cell is replaced by its elements, the label
    of its row repeated for each of them. *)
Definition Series_explode (s : Series) : Series :=
  let parts := map (fun lv => (fst lv, explode_cell (snd lv)))
                   (combine (s_index s) (s_values s)) in
  {| s_index := flat_map (fun p => repeat (fst p) (length (snd p))) parts;
     s_values := flat_map snd parts |}.

Section Pandas.

(** How pandas builds a frame out of exploded columns whose row labels are
    tuples ([MultiIndex]) and differ from column to column.  Nothing in the
    script fixes it, so it stays a parameter. *)
Variable align_multi : DataFrame -> list (string * Series) -> exn + DataFrame.

(** [df.apply(pd.Series.explode)].  A frame without rows or without columns
    comes back as it is.  Otherwise every column is exploded on its own and
    the frame is built again from the exploded columns.  When all of them
    carry the same labels, these label the result.  When they do not, the
    columns are aligned on the union of their labels: some column then has
    a label more than once, and reindexing a column whose single-level
    index has repeated labels raises [ValueError] (cannot reindex on an
    axis with duplicate labels).  This is why the columns that are not lists
    have to go into the index first, as [download_tracker_data] does with
    [trial_num]. *)
Definition apply_explode (df : DataFrame) : exn + DataFrame :=
  if (shape0 df =? 0)%nat || (length (columns df) =? 0)%nat then inr df
  else
    let results :=
      map (fun c => (fst c, Series_explode {| s_index := index df;
                                               s_values := snd c |}))
          (columns df) in
    match results with
    | [] => inr df
    | r0 :: rest =>
        if forallb (fun r => index_eqb (s_index (snd r0)) (s_index (snd r))) rest
        then inr {| index_names := index_names df;
                    index := s_index (snd r0);
                    columns := map (fun r => (fst r, s_values (snd r))) results |}
        else if (length (index_names df) <=? 1)%nat then inl ValueError
        else align_multi df results
    end.

(** [df.reset_index()]: the index levels come back as the leading columns. *)
Definition reset_index (df : DataFrame) : DataFrame :=
  {| index_names := [];
     index := RangeIndex (shape0 df);
     columns :=
       map (fun jn => (snd jn, map (fun l => nth (fst jn) l nan) (index df)))
           (combine (seq 0 (length (index_names df))) (index_names df))
       ++ columns df |}.

(** The rows of a frame, each a mapping from column name to cell: the
    exported rows. *)
Definition to_rows (df : DataFrame) : list record :=
  map (fun i => map (fun c => (fst c, nth i (snd c) nan)) (columns df))
      (seq 0 (shape0 df)).

(** [res.set_index(keys).apply(pd.Series.explode).reset_index()] *)
Definition explode_by (keys : list string) (res : DataFrame) : exn + DataFrame :=
  match set_index keys res with
  | inl e => inl e
  | inr indexed =>
      match apply_explode indexed with
      | inl e => inl e
      | inr exploded => inr (reset_index exploded)
      end
  end.

(** Lines 46 to 50 of [scan_table_to_df]: from the scanned items to the
    frame the function returns. *)
Definition unpack_items (items : list record) (unpack : bool) : exn + DataFrame :=
  let res := from_records items in
  if unpack && (0 <? shape0 res)%nat
  then explode_by ["ppid_session_dataname"] res
  else inr res.

(** Lines 107 and 108 of [download_tracker_data]. *)
Definition unpack_tracker_items (items : list record) : exn + DataFrame :=
  let res := from_records items in
  explode_by ["ppid_session_dataname"; "trial_num"] res.

End Pandas.

(** ** The store, the process and its effects *)

(** The continuation token of a page ([LastEvaluatedKey]), opaque to the
    script. *)
Definition token := string.

(** A response of [table.scan]: the key [LastEvaluatedKey] is present or
    not. *)
Record response := {
  Items : list record;
  LastEvaluatedKey : option token
}.

(** A table answers a scan from the start ([None]) or from a token. *)
Definition table := option token -> response.

(** The parsed command line. *)
Record options := {
  experiment : string;
  region : option string;
  p : bool;
  tracker : bool;
  folder : bool;
  profile : option string;
  access : option string;
  secret : option string
}.

(** What the process does to the outside, in the order it does it. *)
Inductive event :=
| Print (line : string)
| PrintFrame (df : DataFrame)
| Mkdir (path : string)
| Chdir (path : string)
| Session (sess_args : list (string * string))
| Resource (service : string)
| Scan (table_name : string) (ExclusiveStartKey : option token)
| ToCsv (file_name sep : string) (df : DataFrame).

(** The state of the process the script reads and changes: the working
    directory, the directories that exist, and how often the clock was
    read. *)
Record process := {
  cwd : string;
  dirs : list string;
  clock_reads : nat
}.

(** A statement returns, raises, or is still in its loop when the fuel is
    used up. *)
Inductive outcome (A : Type) :=
| Ok (a : A)
| Raise (e : exn)
| Diverge.
Arguments Ok {A} a.
Arguments Raise {A} e.
Arguments Diverge {A}.

Definition M (A : Type) : Type := process -> outcome A * process * list event.

Definition ret {A} (a : A) : M A := fun s => (Ok a, s, []).

Definition bind {A B} (m : M A) (k : A -> M B) : M B :=
  fun s =>
    match m s with
    | (Ok a, s1, t1) =>
        match k a s1 with
        | (r, s2, t2) => (r, s2, t1 ++ t2)
        end
    | (Raise e, s1, t1) => (Raise e, s1, t1)
    | (Diverge, s1, t1) => (Diverge, s1, t1)
    end.

Notation "x <- c1 ;; c2" := (bind c1 (fun x => c2))
  (at level 61, c1 at next level, right associativity).
Notation "c1 ;; c2" := (bind c1 (fun _ => c2))
  (at level 61, right associativity).

Definition raise {A} (e : exn) : M A := fun s => (Raise e, s, []).
Definition diverge {A} : M A := fun s => (Diverge, s, []).
Definition emit (e : event) : M unit := fun s => (Ok tt, s, [e]).

(** A pure pandas computation inside the process. *)
Definition lift {A} (r : exn + A) : M A :=
  match r with
  | inl e => raise e
  | inr a => ret a
  end.

(** [try: body  except E: handler], [handles] telling the exceptions [E]
    matches. *)
Definition try_except {A} (body : M A) (handles : exn -> bool) (handler : M A)
  : M A :=
  fun s =>
    match body s with
    | (Raise e, s1, t1) =>
        if handles e then
          match handler s1 with
          | (r, s2, t2) => (r, s2, t1 ++ t2)
          end
        else (Raise e, s1, t1)
    | other => other
    end.

Definition is_not_found (e : exn) : bool :=
  match e with
  | ResourceNotFoundException => true
  | _ => false
  end.

(** [[f(x) for x in l]] *)
Fixpoint comprehension {A B} (f : A -> M B) (l : list A) : M (list B) :=
  match l with
  | [] => ret []
  | x :: l' => y <- f x ;; ys <- comprehension f l' ;; ret (y :: ys)
  end.

(** [print(line)] *)
Definition print (line : string) : M unit := emit (Print line).

(** [sys.exit(code)] *)
Definition sys_exit {A} (code : Z) : M A := raise (SystemExit code).

(** The exit status of the interpreter when [e] is not caught: the low byte
    of the argument of [sys.exit], 1 after a traceback. *)
Definition exit_status (e : exn) : Z :=
  match e with
  | SystemExit code => code mod 256
  | _ => 1
  end.

(** [os.getcwd()], [os.path.isdir(path)], [os.mkdir(path)],
    [os.chdir(path)].  The calls are taken to succeed. *)
Definition os_getcwd : M string := fun s => (Ok (cwd s), s, []).

Definition os_path_isdir (path : string) : M bool :=
  fun s => (Ok (existsb (String.eqb path) (dirs s)), s, []).

Definition os_mkdir (path : string) : M unit :=
  fun s => (Ok tt,
            {| cwd := cwd s; dirs := path :: dirs s; clock_reads := clock_reads s |},
            [Mkdir path]).

Definition os_chdir (path : string) : M unit :=
  fun s => (Ok tt,
            {| cwd := path; dirs := dirs s; clock_reads := clock_reads s |},
            [Chdir path]).

Definition ends_with_slash (a : string) : bool :=
  match get (String.length a - 1) a with
  | Some c => Ascii.eqb c "/"
  | None => false
  end.

(** [os.path.join(a, b)] of [posixpath]. *)
Definition os_path_join (a b : string) : string :=
  if prefix "/" b then b
  else if (String.length a =? 0)%nat || ends_with_slash a then a ++ b
  else a ++ "/" ++ b.

Section Script.

(** The tables of the DynamoDB resource by name, the readings of the local
    clock in the order they are taken, and the alignment pandas makes of
    differing [MultiIndex] labels. *)
Variable store : string -> option table.
Variable localtime : nat -> struct_time.
Variable align_multi : DataFrame -> list (string * Series) -> exn + DataFrame.

(** [time.localtime()] *)
Definition time_localtime : M struct_time :=
  fun s => (Ok (localtime (clock_reads s)),
            {| cwd := cwd s; dirs := dirs s; clock_reads := S (clock_reads s) |},
            []).

(** [get_output_file_name(experiment, table)] *)
Definition get_output_file_name (experiment table : string) : M string :=
  now <- time_localtime ;;
  ret (output_file_name_at now experiment table).

(** [table.scan(ExclusiveStartKey=start)] on [dynamodb.Table(table_name)]:
    the call is issued, and a table the store does not have makes it raise
    [ResourceNotFoundException]. *)
Definition table_scan (table_name : string) (start : option token) : M response :=
  emit (Scan table_name start) ;;
  match store table_name with
  | Some tbl => ret (tbl start)
  | None => raise ResourceNotFoundException
  end.

(** The loop
    [while 'LastEvaluatedKey' in response:
       response = table.scan(ExclusiveStartKey=response['LastEvaluatedKey'])
       items.extend(response['Items'])]. *)
Fixpoint scan_loop (fuel : nat) (table_name : string) (resp : response)
  (items : list record) : M (list record) :=
  match LastEvaluatedKey resp with
  | None => ret items
  | Some k =>
      match fuel with
      | O => diverge
      | S fuel' =>
          resp' <- table_scan table_name (Some k) ;;
          scan_loop fuel' table_name resp' (items ++ Items resp')
      end
  end.

(** Lines 37 to 44 of [scan_table_to_df], the same statements as lines 99
    to 105 of [download_tracker_data]: the first scan and the loop. *)
Definition scan_items (fuel : nat) (table_name : string) : M (list record) :=
  resp <- table_scan table_name None ;;
  scan_loop fuel table_name resp (Items resp).

(** [scan_table_to_df(dynamodb, table_name, unpack)] *)
Definition scan_table_to_df (fuel : nat) (table_name : string) (unpack : bool)
  : M DataFrame :=
  items <- scan_items fuel table_name ;;
  lift (unpack_items align_multi items unpack).

(** [save_dataframe(df, file_name, sep)] *)
Definition save_dataframe (df : DataFrame) (file_name sep : string) : M unit :=
  if (0 <? shape0 df)%nat then
    emit (ToCsv file_name sep df) ;;
    print (file_name ++ ": " ++ str_of_nat (shape0 df) ++ " rows.")
  else
    print (file_name ++ ": no data, skipping.").

(** The body of the [for] loop of [download_uxf_tables] for one pair of
    [zip(tnames, fnames)]. *)
Definition download_one (fuel : nat) (tbl out : string) : M unit :=
  try_except
    (data <- scan_table_to_df fuel tbl true ;;
     save_dataframe data out tab)
    is_not_found
    (print (out ++ ": table " ++ tbl ++ " not found, skipping.")).

Fixpoint for_each {A} (body : A -> M unit) (l : list A) : M unit :=
  match l with
  | [] => ret tt
  | x :: l' => body x ;; for_each body l'
  end.

(** [for tbl, out in zip(tnames, fnames): ...] *)
Definition download_each (fuel : nat) (tnames fnames : list string) : M unit :=
  for_each (fun pr => download_one fuel (fst pr) (snd pr)) (combine tnames fnames).

(** [[get_table_name(experiment, t, prefix) for t in tables]] *)
Definition table_names (experiment : string) (tables : list string)
  (prefix : string) : list string :=
  map (fun t => get_table_name experiment t prefix) tables.

(** [download_uxf_tables(dynamodb, experiment, tables, prefix)] *)
Definition download_uxf_tables (fuel : nat) (experiment : string)
  (tables : list string) (prefix : string) : M unit :=
  let tnames := table_names experiment tables prefix in
  fnames <- comprehension (get_output_file_name experiment) tables ;;
  download_each fuel tnames fnames.

(** [download_tracker_data(dynamodb, experiment, prefix)] *)
Definition download_tracker_data (fuel : nat) (experiment prefix : string)
  : M unit :=
  let tname := get_table_name experiment "Trackers" prefix in
  fname <- get_output_file_name experiment "Trackers" ;;
  try_except
    (items <- scan_items fuel tname ;;
     res <- lift (unpack_tracker_items align_multi items) ;;
     save_dataframe res fname tab)
    is_not_found
    (print (fname ++ ": table " ++ tname ++ " not found, skipping.")).

Definition PREFIX : string := "UXFData".
Definition TABLES : list string :=
  ["ParticipantDetails"; "TrialResults"; "Settings"; "SessionLog";
   "SummaryStatistics"].

(** [sess_args] as the script fills it. *)
Definition region_args (o : options) : list (string * string) :=
  match region o with
  | Some r => [("region_name", r)]
  | None => []
  end.

Definition profile_args (o : options) : list (string * string) :=
  match profile o with
  | Some pr => [("profile_name", pr)]
  | None => []
  end.

Definition usage_error : string :=
  "Error: --access and --secret must both be specified to use credentials from the command line!".

(** Lines 139 to 149: the session parameters, or the exit on a half-given
    key pair. *)
Definition session_arguments (o : options) : M (list (string * string)) :=
  let sess_args := region_args o ++ profile_args o in
  match access o, secret o with
  | Some a, Some k =>
      ret (sess_args ++ [("aws_access_key_id", a); ("aws_secret_access_key", k)])
  | None, None => ret sess_args
  | _, _ => print usage_error ;; sys_exit (-1)
  end.

(** Lines 131 to 136: the subfolder, returning [prev_wd] when there is one. *)
Definition enter_folder (o : options) : M (option string) :=
  if folder o then
    here <- os_getcwd ;;
    let data_folder := os_path_join here (experiment o) in
    is_dir <- os_path_isdir data_folder ;;
    (if negb is_dir then os_mkdir data_folder else ret tt) ;;
    prev_wd <- os_getcwd ;;
    os_chdir data_folder ;;
    ret (Some prev_wd)
  else ret None.

(** Lines 153 to 169: the two modes. *)
Definition downloads (fuel : nat) (o : options) : M unit :=
  if negb (p o) then
    print ("Retrieving results for UXF experiment " ++ dquote ++ experiment o
           ++ dquote ++ "...") ;;
    download_uxf_tables fuel (experiment o) TABLES PREFIX ;;
    (if tracker o then download_tracker_data fuel (experiment o) PREFIX
     else ret tt) ;;
    print "Download complete."
  else
    print ("Participant details for UXF experiment " ++ dquote ++ experiment o
           ++ dquote ++ ":" ++ newline) ;;
    df <- scan_table_to_df fuel
            (get_table_name (experiment o) "ParticipantDetails" PREFIX) true ;;
    emit (PrintFrame df) ;;
    fname <- get_output_file_name (experiment o) "ParticipantDetails" ;;
    save_dataframe df fname tab.

(** The script run as [__main__] on the parsed options. *)
Definition main (fuel : nat) (o : options) : M unit :=
  prev_wd <- enter_folder o ;;
  sess_args <- session_arguments o ;;
  emit (Session sess_args) ;;
  emit (Resource "dynamodb") ;;
  downloads fuel o ;;
  match prev_wd with
  | Some wd => os_chdir wd
  | None => ret tt
  end.

End Script.

(** ** Vocabulary of the properties *)

(** The pages a table serves from [start] on: each page but the last carries
    the token the next one is asked with, the last carries none. *)
Inductive pages_from (tbl : table) : option token -> list response -> Prop :=
| pages_last (start : option token) :
    LastEvaluatedKey (tbl start) = None ->
    pages_from tbl start [tbl start]
| pages_next (start : option token) (k : token) (ps : list response) :
    LastEvaluatedKey (tbl start) = Some k ->
    pages_from tbl (Some k) ps ->
    pages_from tbl start (tbl start :: ps).

(** The continuation calls answering to the pages [ps] but the last. *)
Definition continuation_calls (name : string) (ps : list response) : list event :=
  map (fun pg => Scan name (LastEvaluatedKey pg)) (removelast ps).

(** The scan calls a scanner makes that follows the pages [ps]: one from the
    start, then one with the token of each page that has one. *)
Definition scan_calls (name : string) (ps : list response) : list event :=
  Scan name None :: continuation_calls name ps.

(** The number of items of each page. *)
Definition item_counts (ps : list response) : list nat :=
  map (fun pg => length (Items pg)) ps.

(** Events that reach out to AWS. *)
Definition network (e : event) : bool :=
  match e with
  | Session _ | Resource _ | Scan _ _ => true
  | _ => false
  end.

(** Events of a download: a scan of a table or a file written. *)
Definition download_event (e : event) : bool :=
  match e with
  | Scan _ _ | ToCsv _ _ _ => true
  | _ => false
  end.

Definition is_chdir (e : event) : bool :=
  match e with
  | Chdir _ => true
  | _ => false
  end.

(** The table an event scans, if it is a scan call. *)
Definition scanned_table (e : event) : option string :=
  match e with
  | Scan name _ => Some name
  | _ => None
  end.

(** The file name the naming convention describes,
    [{experiment}_{table_kind}_{YYYYMMDD_HHmm}.csv]: year, month, day, hour
    and minute. *)
Definition documented_file_name (now : struct_time) (experiment table : string)
  : string :=
  experiment ++ "_" ++ table ++ "_"
    ++ str_of_nat (tm_year now) ++ pad2 (tm_mon now) ++ pad2 (tm_mday now)
    ++ "_" ++ pad2 (tm_hour now) ++ pad2 (tm_min now) ++ ".csv".

(** The line printed for a table the store does not have. *)
Definition not_found_message (out tbl : string) : string :=
  out ++ ": table " ++ tbl ++ " not found, skipping.".

(** The state after [n] more readings of the clock. *)
Definition after_clock_reads (n : nat) (s : process) : process :=
  {| cwd := cwd s; dirs := dirs s; clock_reads := n + clock_reads s |}.

(** Exactly one of the two keys is given on the command line. *)
Definition partial_credentials (o : options) : Prop :=
  (access o <> None /\ secret o = None) \/ (access o = None /\ secret o <> None).

(** The attributes of an item beside the row identifier, as [set_index]
    leaves them. *)
Definition fields_beside_key (r : record) : record :=
  filter (fun fv => negb (existsb (String.eqb (fst fv)) ["ppid_session_dataname"])) r.

(** The number of rows a cell expands to. *)
Definition expansion (v : value) : nat := length (explode_cell v).

(** Row [i] of an item with row identifier [k] whose other attributes are
    [rest]: the identifier and the [i]-th element of every attribute. *)
Definition row_at (k : value) (rest : record) (i : nat) : record :=
  ("ppid_session_dataname", k)
    :: map (fun fv => (fst fv, nth i (explode_cell (snd fv)) nan)) rest.

(** The attribute names of all items, the columns of their frame. *)
Definition field_names (items : list record) : list string :=
  uniq (flat_map (map fst) items).

(** The labels and the cells of column [f] after [Series.explode], the rows
    being labelled with the cells of column [k]. *)
Definition exploded_index (k f : string) (items : list record) : list (list value) :=
  flat_map (fun r => repeat [cell k r] (expansion (cell f r))) items.

Definition exploded_values (f : string) (items : list record) : list value :=
  flat_map (fun r => explode_cell (cell f r)) items.

(** A dot occurs in a name. *)
Fixpoint has_dot (s : string) : bool :=
  match s with
  | EmptyString => false
  | String c rest => Ascii.eqb c "." || has_dot rest
  end.

(** The table kinds the script knows: the default list and the trackers. *)
Definition table_kinds : list string := TABLES ++ ["Trackers"].

(** The columns of the frame of the items beside the row identifier. *)
Definition columns_beside_key (items : list record) : list string :=
  filter (fun f => negb (existsb (String.eqb f) ["ppid_session_dataname"]))
         (field_names items).

(** The number of rows an item of a table with the columns [cols] beside the
    row identifier unpacks to when its columns agree: that of the first
    column, one when there is none. *)
Definition rows_of (cols : list string) (r : record) : nat :=
  match cols with
  | [] => 1
  | f0 :: _ => expansion (cell f0 r)
  end.

(** An item as a row of the frame with the columns [cols] beside the row
    identifier: NaN where it lacks the attribute. *)
Definition completed_row (cols : list string) (r : record) : record :=
  ("ppid_session_dataname", cell "ppid_session_dataname" r)
    :: map (fun f => (f, cell f r)) cols.

(** The file names of the table kinds [ts], the first at clock reading [n],
    each later one at the next reading. *)
Fixpoint file_names_from (localtime : nat -> struct_time) (experiment : string)
  (n : nat) (ts : list string) : list string :=
  match ts with
  | [] => []
  | t :: ts' =>
      output_file_name_at (localtime n) experiment t
        :: file_names_from localtime experiment (S n) ts'
  end.

Definition is_to_csv (e : event) : bool :=
  match e with
  | ToCsv _ _ _ => true
  | _ => false
  end.

Definition is_mkdir (e : event) : bool :=
  match e with
  | Mkdir _ => true
  | _ => false
  end.

(** The events that follow the unpacking of a table into [df] in the loop
    body: the file and the count of its rows, or the line that there is no
    data. *)
Definition save_events (df : DataFrame) (out : string) : list event :=
  if (0 <? shape0 df)%nat
  then [ToCsv out tab df;
        Print (out ++ ": " ++ str_of_nat (shape0 df) ++ " rows.")%string]
  else [Print (out ++ ": no data, skipping.")%string].

(** Lines 138 to 169 of the script: the session and the downloads between
    the entry into the subfolder and the return from it. *)
Definition session_and_downloads (store : string -> option table)
  (localtime : nat -> struct_time)
  (align_multi : DataFrame -> list (string * Series) -> exn + DataFrame)
  (fuel : nat) (o : options) : M unit :=
  sess_args <- session_arguments o ;;
  emit (Session sess_args) ;;
  emit (Resource "dynamodb") ;;
  downloads store localtime align_multi fuel o.

(** Lines 171 and 172: back to [prev_wd] when the subfolder was entered. *)
Definition leave_folder (prev_wd : option string) : M unit :=
  match prev_wd with
  | Some wd => os_chdir wd
  | None => ret tt
  end.

(** [keeps_directories m]: however [m] ends, the working directory and the
    directories that exist are those of the start. *)
Definition keeps_directories {A} (m : M A) : Prop :=
  forall s r s' evs, m s = (r, s', evs) -> cwd s' = cwd s /\ dirs s' = dirs s.

(** [raises_only E m]: an exception that [m] ends in satisfies [E]. *)
Definition raises_only {A} (E : exn -> Prop) (m : M A) : Prop :=
  forall s e s' evs, m s = (Raise e, s', evs) -> E e.


(** The exceptions of the unpacking. *)
Definition unpack_error (e : exn) : Prop := e = KeyError \/ e = ValueError.

(** ** Sample inputs *)

Module Sample.

Definition K : string := "ppid_session_dataname".

(** 15 March 2021, 14:27:09. *)
Definition now : struct_time :=
  {| tm_year := 2021; tm_mon := 3; tm_mday := 15;
     tm_hour := 14; tm_min := 27; tm_sec := 9 |}.

Definition clock (n : nat) : struct_time := now.

Definition align (df : DataFrame) (results : list (string * Series))
  : exn + DataFrame := inl ValueError.

(** One session with three trials. *)
Definition trials (session : string) : record :=
  [(K, Scalar (SStr session));
   ("trial_num", Seq [SNum 1; SNum 2; SNum 3]);
   ("outcome", Seq [SStr "x"; SStr "y"; SStr "z"])].

(** The record of the unpacking example: two sequences and a scalar. *)
Definition mixed : record :=
  [(K, Scalar (SStr "v"));
   ("a", Seq [SNum 1; SNum 2; SNum 3]);
   ("b", Seq [SStr "x"; SStr "y"; SStr "z"]);
   ("c", Scalar (SNum 5))].

(** The same record without the scalar field. *)
Definition sequences : record :=
  [(K, Scalar (SStr "v"));
   ("a", Seq [SNum 1; SNum 2; SNum 3]);
   ("b", Seq [SStr "x"; SStr "y"; SStr "z"])].

(** A record of scalars only. *)
Definition participant : record :=
  [(K, Scalar (SStr "p1_s1_participant_details"));
   ("age", Scalar (SNum 31));
   ("hand", Scalar (SStr "left"))].

(** Sequences of lengths 2 and 3, and of lengths 0 and 1. *)
Definition ragged : record :=
  [(K, Scalar (SStr "v"));
   ("a", Seq [SNum 1; SNum 2]);
   ("b", Seq [SStr "x"; SStr "y"; SStr "z"])].

Definition empty_and_one : record :=
  [(K, Scalar (SStr "v"));
   ("a", Seq []);
   ("b", Seq [SStr "x"])].

(** A table served in three pages of 2, 1 and 1 items. *)
Definition three_pages : table :=
  fun start =>
    match start with
    | None =>
        {| Items := [trials "p1_s1"; trials "p1_s2"];
           LastEvaluatedKey := Some "p1_s2" |}
    | Some k =>
        if String.eqb k "p1_s2" then
          {| Items := [trials "p2_s1"]; LastEvaluatedKey := Some "p2_s1" |}
        else
          {| Items := [trials "p3_s1"]; LastEvaluatedKey := None |}
    end.

Definition one_page (items : list record) : table :=
  fun _ => {| Items := items; LastEvaluatedKey := None |}.

(** The pages of the table [three_pages]. *)
Definition pages : list response :=
  [three_pages None; three_pages (Some "p1_s2"); three_pages (Some "p2_s1")].

(** The three rows of the unpacking example, with and without [c]. *)
Definition rows_with_c : list record :=
  [[(K, Scalar (SStr "v")); ("a", Scalar (SNum 1)); ("b", Scalar (SStr "x"));
    ("c", Scalar (SNum 5))];
   [(K, Scalar (SStr "v")); ("a", Scalar (SNum 2)); ("b", Scalar (SStr "y"));
    ("c", Scalar (SNum 5))];
   [(K, Scalar (SStr "v")); ("a", Scalar (SNum 3)); ("b", Scalar (SStr "z"));
    ("c", Scalar (SNum 5))]].

Definition rows_without_c : list record :=
  [[(K, Scalar (SStr "v")); ("a", Scalar (SNum 1)); ("b", Scalar (SStr "x"))];
   [(K, Scalar (SStr "v")); ("a", Scalar (SNum 2)); ("b", Scalar (SStr "y"))];
   [(K, Scalar (SStr "v")); ("a", Scalar (SNum 3)); ("b", Scalar (SStr "z"))]].

(** The store of experiment Exp1: trial results in three pages, one
    participant, a tracker table without items, and no other table. *)
Definition store (name : string) : option table :=
  if String.eqb name "UXFData.Exp1.TrialResults" then Some three_pages
  else if String.eqb name "UXFData.Exp1.ParticipantDetails"
       then Some (one_page [participant])
  else if String.eqb name "UXFData.Exp1.Trackers" then Some (one_page [])
  else None.

Definition home : process :=
  {| cwd := "/home/uxf"; dirs := ["/home/uxf"]; clock_reads := 0 |}.

Definition opts : options :=
  {| experiment := "Exp1"; region := Some "eu-west-1";
     p := false; tracker := false; folder := true;
     profile := None; access := None; secret := None |}.

(** The same command line with [-t], and with [--access] alone. *)
Definition opts_tracker : options :=
  {| experiment := "Exp1"; region := Some "eu-west-1";
     p := false; tracker := true; folder := false;
     profile := None; access := None; secret := None |}.

(** A store in which every table exists and has no items. *)
Definition empty_store (name : string) : option table := Some (one_page []).

Definition opts_access_only : options :=
  {| experiment := "Exp1"; region := Some "eu-west-1";
     p := false; tracker := false; folder := true;
     profile := None; access := Some "AKIAEXAMPLE"; secret := None |}.

(** 15 March 2021, 14:59:58, in the same hour as [now]. *)
Definition later : struct_time :=
  {| tm_year := 2021; tm_mon := 3; tm_mday := 15;
     tm_hour := 14; tm_min := 59; tm_sec := 58 |}.

(** A session of two trials whose item has no attribute [outcome]. *)
Definition without_outcome : record :=
  [(K, Scalar (SStr "p9_s1")); ("trial_num", Seq [SNum 1; SNum 2])].

(** A participant whose item has no attribute [hand]. *)
Definition participant_without_hand : record :=
  [(K, Scalar (SStr "p2_s1_participant_details")); ("age", Scalar (SNum 27))].

(** An item without the row identifier. *)
Definition anonymous : record := [("age", Scalar (SNum 40))].

(** A table every page of which announces another one. *)
Definition endless : table :=
  fun _ => {| Items := [participant]; LastEvaluatedKey := Some "again" |}.

Definition endless_store (name : string) : option table := Some endless.

(** [-p] on the experiment of the sample store, and on one it does not
    have; the default command line on the latter, without [-f]. *)
Definition opts_participant : options :=
  {| experiment := "Exp1"; region := Some "eu-west-1";
     p := true; tracker := true; folder := false;
     profile := None; access := None; secret := None |}.

Definition opts_participant_unknown : options :=
  {| experiment := "Exp2"; region := Some "eu-west-1";
     p := true; tracker := false; folder := true;
     profile := None; access := None; secret := None |}.

Definition opts_unknown : options :=
  {| experiment := "Exp2"; region := Some "eu-west-1";
     p := false; tracker := true; folder := false;
     profile := Some "lab"; access := Some "AKIAEXAMPLE"; secret := Some "s3cr3t" |}.

(** A store all of whose tables hold one item without row identifier. *)
Definition anonymous_store (name : string) : option table :=
  Some (one_page [anonymous]).

End Sample.

(** ** Reasoning about runs *)

(** [emits P m]: whatever the state it starts in and however it ends, [m]
    emits only events that satisfy [P]. *)
Definition emits {A} (P : event -> Prop) (m : M A) : Prop :=
  forall s r s' evs, m s = (r, s', evs) -> Forall P evs.

Section Emits.

Variable P : event -> Prop.

Lemma emits_ret {A} (a : A) : emits P (ret a).
Proof. intros s r s' evs H. inversion H. constructor. Qed.

Lemma emits_raise {A} (e : exn) : emits P (@raise A e).
Proof. intros s r s' evs H. inversion H. constructor. Qed.

Lemma emits_diverge {A} : emits P (@diverge A).
Proof. intros s r s' evs H. inversion H. constructor. Qed.

Lemma emits_emit (e : event) : P e -> emits P (emit e).
Proof. intros He s r s' evs H. inversion H. repeat constructor. exact He. Qed.

Lemma emits_lift {A} (x : exn + A) : emits P (lift x).
Proof. destruct x; [apply emits_raise | apply emits_ret]. Qed.

Lemma emits_bind {A B} (m : M A) (k : A -> M B) :
  emits P m -> (forall a, emits P (k a)) -> emits P (bind m k).
Proof.
  intros Hm Hk s r s' evs H. unfold bind in H.
  destruct (m s) as [[[a | e |] s1] t1] eqn:E.
  - destruct (k a s1) as [[r2 s2] t2] eqn:E2. inversion H; subst.
    apply Forall_app. split; [eapply Hm | eapply Hk]; eauto.
  - inversion H; subst. eapply Hm; eauto.
  - inversion H; subst. eapply Hm; eauto.
Qed.

Lemma emits_try_except {A} (body : M A) handles (handler : M A) :
  emits P body -> emits P handler -> emits P (try_except body handles handler).
Proof.
  intros Hb Hh s r s' evs H. unfold try_except in H.
  destruct (body s) as [[[a | e |] s1] t1] eqn:E.
  - inversion H; subst. eapply Hb; eauto.
  - destruct (handles e).
    + destruct (handler s1) as [[r2 s2] t2] eqn:E2. inversion H; subst.
      apply Forall_app. split; [eapply Hb | eapply Hh]; eauto.
    + inversion H; subst. eapply Hb; eauto.
  - inversion H; subst. eapply Hb; eauto.
Qed.

Lemma emits_for_each {A} (body : A -> M unit) (l : list A) :
  (forall x, In x l -> emits P (body x)) -> emits P (for_each body l).
Proof.
  induction l as [| x l IH]; intros H; simpl.
  - apply emits_ret.
  - apply emits_bind.
    + apply H. now left.
    + intros _. apply IH. intros y Hy. apply H. now right.
Qed.

Lemma emits_comprehension {A B} (f : A -> M B) (l : list A) :
  (forall x, emits P (f x)) -> emits P (comprehension f l).
Proof.
  intros H. induction l as [| x l IH]; simpl.
  - apply emits_ret.
  - apply emits_bind; [apply H |]. intros y.
    apply emits_bind; [apply IH |]. intros ys. apply emits_ret.
Qed.

Lemma emits_os_getcwd : emits P os_getcwd.
Proof. intros s r s' evs H. inversion H. constructor. Qed.

Lemma emits_os_path_isdir path : emits P (os_path_isdir path).
Proof. intros s r s' evs H. inversion H. constructor. Qed.

Lemma emits_os_mkdir path : P (Mkdir path) -> emits P (os_mkdir path).
Proof. intros Hp s r s' evs H. inversion H. repeat constructor. exact Hp. Qed.

Lemma emits_os_chdir path : P (Chdir path) -> emits P (os_chdir path).
Proof. intros Hp s r s' evs H. inversion H. repeat constructor. exact Hp. Qed.

Lemma emits_get_output_file_name localtime e t :
  emits P (get_output_file_name localtime e t).
Proof.
  apply emits_bind.
  - intros s r s' evs H. inversion H. constructor.
  - intros now. apply emits_ret.
Qed.

Lemma emits_save_dataframe df file_name sep :
  P (ToCsv file_name sep df) -> (forall line, P (Print line)) ->
  emits P (save_dataframe df file_name sep).
Proof.
  intros Hcsv Hprint. unfold save_dataframe, print.
  destruct (0 <? shape0 df)%nat.
  - apply emits_bind; [apply emits_emit, Hcsv |]. intros _. apply emits_emit, Hprint.
  - apply emits_emit, Hprint.
Qed.

End Emits.

(** The scans of one table emit scan calls on that table only. *)
Lemma emits_table_scan (P : event -> Prop) store name start :
  P (Scan name start) -> emits P (table_scan store name start).
Proof.
  intros Hp. unfold table_scan. apply emits_bind; [apply emits_emit, Hp |].
  intros _. destruct (store name); [apply emits_ret | apply emits_raise].
Qed.

Lemma emits_scan_loop (P : event -> Prop) store name :
  (forall start, P (Scan name start)) ->
  forall fuel resp items, emits P (scan_loop store fuel name resp items).
Proof.
  intros Hp. induction fuel as [| fuel IH]; intros resp items; simpl.
  - destruct (LastEvaluatedKey resp); [apply emits_diverge | apply emits_ret].
  - destruct (LastEvaluatedKey resp); [| apply emits_ret].
    apply emits_bind; [apply emits_table_scan, Hp |]. intros resp'. apply IH.
Qed.

Lemma emits_scan_items (P : event -> Prop) store fuel name :
  (forall start, P (Scan name start)) -> emits P (scan_items store fuel name).
Proof.
  intros Hp. unfold scan_items.
  apply emits_bind; [apply emits_table_scan, Hp |]. intros resp.
  now apply emits_scan_loop.
Qed.

(** ** The scanner *)

Section Scanner.

Variable store : string -> option table.
Variable name : string.
Variable tbl : table.
Hypothesis Htable : store name = Some tbl.

Lemma table_scan_found (start : option token) (s : process) :
  table_scan store name start s = (Ok (tbl start), s, [Scan name start]).
Proof. unfold table_scan, bind, emit. rewrite Htable. reflexivity. Qed.

(** From a page on, the loop asks for every later page with the token of
    the one before and appends its items. *)
Lemma scan_loop_pages (start : option token) (ps : list response) :
  pages_from tbl start ps ->
  forall fuel items s,
    length ps <= S fuel ->
    scan_loop store fuel name (tbl start) items s
    = (Ok (items ++ concat (map Items (tl ps))), s, continuation_calls name ps).
Proof.
  induction 1 as [start Hlast | start k ps Hk Hps IH]; intros fuel items s Hfuel.
  - destruct fuel; simpl; rewrite Hlast; unfold ret; simpl;
      now rewrite app_nil_r.
  - assert (Hne : ps <> []) by (inversion Hps; discriminate).
    destruct fuel as [| fuel]; simpl in Hfuel.
    + destruct ps; [congruence | simpl in Hfuel; lia].
    + simpl scan_loop. rewrite Hk. unfold bind at 1.
      rewrite table_scan_found.
      rewrite IH by lia.
      assert (Hhd : exists ps', ps = tbl (Some k) :: ps')
        by (inversion Hps; eauto).
      destruct Hhd as [ps' ->]. unfold continuation_calls. simpl.
      rewrite Hk. now rewrite <- app_assoc.
Qed.

Lemma scan_items_pages (ps : list response) (fuel : nat) (s : process) :
  pages_from tbl None ps ->
  length ps <= S fuel ->
  scan_items store fuel name s
  = (Ok (concat (map Items ps)), s, scan_calls name ps).
Proof.
  intros Hps Hfuel. unfold scan_items, bind. rewrite table_scan_found.
  rewrite (scan_loop_pages None ps Hps) by exact Hfuel.
  inversion Hps; subst; reflexivity.
Qed.

End Scanner.

Lemma length_concat_items (ps : list response) :
  length (concat (map Items ps)) = list_sum (item_counts ps).
Proof.
  induction ps as [| pg ps IH]; simpl; [reflexivity |].
  now rewrite length_app, IH.
Qed.

Lemma length_removelast {A} (l : list A) :
  l <> [] -> S (length (removelast l)) = length l.
Proof.
  induction l as [| x l IH]; intros Hne; [congruence |].
  destruct l as [| y l]; [reflexivity |].
  change (removelast (x :: y :: l)) with (x :: removelast (y :: l)).
  simpl length. f_equal. apply IH. discriminate.
Qed.

Lemma length_scan_calls (name : string) (ps : list response) :
  ps <> [] -> length (scan_calls name ps) = length ps.
Proof.
  intros Hne. unfold scan_calls, continuation_calls. simpl.
  rewrite length_map. now apply length_removelast.
Qed.

Lemma pages_from_last (tbl : table) (start : option token) (ps : list response) :
  pages_from tbl start ps ->
  LastEvaluatedKey (last ps (tbl None)) = None.
Proof.
  induction 1 as [start Hlast | start k ps Hk Hps IH]; [exact Hlast |].
  destruct ps as [| pg ps]; [inversion Hps | exact IH].
Qed.

Lemma pages_from_tokens (tbl : table) (start : option token) (ps : list response) :
  pages_from tbl start ps ->
  Forall (fun pg => LastEvaluatedKey pg <> None) (removelast ps).
Proof.
  induction 1 as [start Hlast | start k ps Hk Hps IH]; [constructor |].
  destruct ps as [| pg ps]; [inversion Hps |].
  change (removelast (tbl start :: pg :: ps))
    with (tbl start :: removelast (pg :: ps)).
  constructor; [congruence | exact IH].
Qed.

(** C1. For every table that serves its items in the pages [ps], N of them,
    the scanner, given fuel for N calls, returns after exactly N scan
    calls: one from the start and one with the continuation token of every
    page that carries one, the last page carrying none.  The items it returns
    are those of all pages put together, so their number is the sum of the
    pages' item counts, wherever the page boundaries fall; the frame built
    from them without unpacking has that many rows. *)
Theorem scanner_follows_pages
  (store : string -> option table)
  (align_multi : DataFrame -> list (string * Series) -> exn + DataFrame)
  (name : string) (tbl : table) (ps : list response) (fuel : nat) (s : process) :
  store name = Some tbl ->
  pages_from tbl None ps ->
  length ps <= S fuel ->
  scan_items store fuel name s
    = (Ok (concat (map Items ps)), s, scan_calls name ps)
  /\ length (scan_calls name ps) = length ps
  /\ Forall (fun pg => LastEvaluatedKey pg <> None) (removelast ps)
  /\ LastEvaluatedKey (last ps (tbl None)) = None
  /\ length (concat (map Items ps)) = list_sum (item_counts ps)
  /\ (exists df,
        scan_table_to_df store align_multi fuel name false s
          = (Ok df, s, scan_calls name ps)
        /\ shape0 df = list_sum (item_counts ps)).
Proof.
  intros Hstore Hps Hfuel.
  pose proof (scan_items_pages store name tbl Hstore ps fuel s Hps Hfuel) as Hscan.
  split; [exact Hscan |].
  split; [apply length_scan_calls; inversion Hps; discriminate |].
  split; [exact (pages_from_tokens tbl None ps Hps) |].
  split; [exact (pages_from_last tbl None ps Hps) |].
  split; [apply length_concat_items |].
  exists (from_records (concat (map Items ps))). split.
  - unfold scan_table_to_df, bind. rewrite Hscan. unfold unpack_items. simpl.
    now rewrite app_nil_r.
  - unfold shape0, from_records, RangeIndex. simpl.
    rewrite length_map, length_seq. apply length_concat_items.
Qed.

(** ** File names *)

Lemma append_empty_r (a : string) : (a ++ EmptyString)%string = a.
Proof. induction a as [| c a IH]; simpl; [reflexivity | now rewrite IH]. Qed.

Lemma append_assoc (a b c : string) :
  ((a ++ b) ++ c)%string = (a ++ (b ++ c))%string.
Proof. induction a as [| x a IH]; simpl; [reflexivity | now rewrite IH]. Qed.

Lemma append_inj_l (a b c : string) : (a ++ b)%string = (a ++ c)%string -> b = c.
Proof.
  induction a as [| x a IH]; simpl; intros H; [exact H |].
  inversion H. auto.
Qed.

(** The time stamp of the file name is year, month, day, hour and, where
    the minute is expected, the month once more. *)
Lemma output_file_name_at_fields (now : struct_time) (experiment table : string) :
  output_file_name_at now experiment table
  = (experiment ++ "_" ++ table ++ "_"
      ++ (str_of_nat (tm_year now) ++ pad2 (tm_mon now) ++ pad2 (tm_mday now)
          ++ "_" ++ pad2 (tm_hour now) ++ pad2 (tm_mon now))
      ++ ".csv")%string.
Proof.
  unfold output_file_name_at. cbn [strftime Ascii.eqb Bool.eqb directive].
  cbn. now rewrite append_empty_r.
Qed.

(** C4. At 14:27 on 15 March 2021 the file name of table kind TrialResults
    of experiment Exp1 ends in the time stamp 20210315_1403, hour and month,
    where the naming convention [YYYYMMDD_HHmm] asks for 20210315_1427, hour
    and minute: the format of [get_output_file_name] has [%m] in the place
    of [%M]. *)
Theorem file_name_has_month_for_minute :
  get_output_file_name Sample.clock "Exp1" "TrialResults" Sample.home
    = (Ok "Exp1_TrialResults_20210315_1403.csv",
       after_clock_reads 1 Sample.home, [])
  /\ documented_file_name Sample.now "Exp1" "TrialResults"
     = "Exp1_TrialResults_20210315_1427.csv"
  /\ output_file_name_at Sample.now "Exp1" "TrialResults"
     <> documented_file_name Sample.now "Exp1" "TrialResults".
Proof.
  split; [reflexivity |]. split; [reflexivity |].
  vm_compute. discriminate.
Qed.

(** ** The command line *)

(** C8. When exactly one of [--access] and [--secret] is given, the script
    prints the error that both must be specified and exits through
    [sys.exit(-1)], exit status 255: the only events before the message are
    those of the subfolder, and no session, resource or scan is ever
    reached. *)
Theorem partial_credentials_exit
  (store : string -> option table) (localtime : nat -> struct_time)
  (align_multi : DataFrame -> list (string * Series) -> exn + DataFrame)
  (fuel : nat) (o : options) (s : process) :
  partial_credentials o ->
  exists s' setup,
    main store localtime align_multi fuel o s
      = (Raise (SystemExit (-1)), s', setup ++ [Print usage_error])
    /\ Forall (fun e => network e = false) setup
    /\ exit_status (SystemExit (-1)) = 255%Z.
Proof.
  intros Hpartial.
  assert (Hargs : forall s1,
             session_arguments o s1 = (Raise (SystemExit (-1)), s1, [Print usage_error])).
  { intros s1. unfold session_arguments, partial_credentials in *.
    destruct (access o), (secret o); try reflexivity;
      destruct Hpartial as [[? ?] | [? ?]]; congruence. }
  unfold main, enter_folder, bind at 1.
  destruct (folder o).
  - unfold bind, os_getcwd, os_path_isdir, os_mkdir, os_chdir, ret; simpl.
    set (data_folder := os_path_join (cwd s) (experiment o)).
    destruct (existsb _ _); simpl; rewrite Hargs; simpl.
    + eexists. exists [Chdir data_folder].
      split; [reflexivity |]. split; [| reflexivity]. repeat constructor.
    + eexists. exists [Mkdir data_folder; Chdir data_folder].
      split; [reflexivity |]. split; [| reflexivity]. repeat constructor.
  - unfold ret, bind. rewrite Hargs. exists s, []. simpl.
    repeat split; constructor.
Qed.

(** ** Laws of the effects, pointwise *)

Lemma bind_ret_l {A B} (a : A) (k : A -> M B) (s : process) :
  bind (ret a) k s = k a s.
Proof. unfold bind, ret. now destruct (k a s) as [[r s2] t2]. Qed.

Lemma bind_assoc {A B C} (m : M A) (k : A -> M B) (h : B -> M C) (s : process) :
  bind (bind m k) h s = bind m (fun a => bind (k a) h) s.
Proof.
  unfold bind. destruct (m s) as [[[a | e |] s1] t1]; try reflexivity.
  destruct (k a s1) as [[[b | e |] s2] t2]; try reflexivity.
  destruct (h b s2) as [[r s3] t3]. now rewrite app_assoc.
Qed.

Lemma bind_ext {A B} (m : M A) (k k' : A -> M B) (s : process) :
  (forall a s1, k a s1 = k' a s1) -> bind m k s = bind m k' s.
Proof.
  intros H. unfold bind. destruct (m s) as [[[a | e |] s1] t1]; try reflexivity.
  now rewrite H.
Qed.

Lemma bind_ext_on {A B} (m : M A) (k k' : A -> M B) (s : process) :
  (forall a s1 t1, m s = (Ok a, s1, t1) -> k a s1 = k' a s1) ->
  bind m k s = bind m k' s.
Proof.
  intros H. unfold bind. destruct (m s) as [[[a | e |] s1] t1]; try reflexivity.
  now rewrite (H a s1 t1).
Qed.

Lemma comprehension_length {A B} (f : A -> M B) (l : list A) :
  forall s ys s' evs,
    comprehension f l s = (Ok ys, s', evs) -> length ys = length l.
Proof.
  induction l as [| x l IH]; intros s ys s' evs H; simpl in H.
  - inversion H. reflexivity.
  - unfold bind in H. destruct (f x s) as [[[y | e |] s1] t1]; try discriminate.
    destruct (comprehension f l s1) as [[[zs | e |] s2] t2] eqn:E; try discriminate.
    simpl in H. inversion H; subst. simpl. f_equal. eapply IH; eauto.
Qed.

Lemma get_output_file_name_run localtime e t (s : process) :
  get_output_file_name localtime e t s
  = (Ok (output_file_name_at (localtime (clock_reads s)) e t),
     after_clock_reads 1 s, []).
Proof. reflexivity. Qed.

(** ** Tables without items and tables that do not exist *)

Lemma unpack_items_empty align_multi (unpack : bool) :
  unpack_items align_multi [] unpack = inr (from_records []).
Proof. unfold unpack_items. simpl. now rewrite andb_false_r. Qed.

Lemma unpack_tracker_items_empty align_multi :
  unpack_tracker_items align_multi [] = inl KeyError.
Proof. reflexivity. Qed.

(** A table kind of the list that exists and has no items: nothing is
    written, the line "no data, skipping." is printed, nothing is raised. *)
Lemma download_one_empty store align_multi fuel tbl out s t :
  store tbl = Some t ->
  t None = {| Items := []; LastEvaluatedKey := None |} ->
  download_one store align_multi fuel tbl out s
  = (Ok tt, s, [Scan tbl None; Print (out ++ ": no data, skipping.")%string]).
Proof.
  intros Hstore Hpage.
  unfold download_one, try_except, scan_table_to_df, scan_items, bind.
  rewrite (table_scan_found store tbl t Hstore). rewrite Hpage.
  destruct fuel; reflexivity.
Qed.

(** The tracker table that exists and has no items: [set_index] on the frame
    without columns raises [KeyError], which nobody catches. *)
Lemma download_tracker_data_empty store localtime align_multi fuel e prefix s t :
  store (get_table_name e "Trackers" prefix) = Some t ->
  t None = {| Items := []; LastEvaluatedKey := None |} ->
  download_tracker_data store localtime align_multi fuel e prefix s
  = (Raise KeyError, after_clock_reads 1 s,
     [Scan (get_table_name e "Trackers" prefix) None]).
Proof.
  intros Hstore Hpage.
  unfold download_tracker_data. cbv zeta. unfold bind at 1.
  rewrite get_output_file_name_run.
  unfold try_except, scan_items, bind.
  rewrite (table_scan_found store _ t Hstore). rewrite Hpage.
  destruct fuel; reflexivity.
Qed.

(** C3. In a store whose tables all exist and have no items, a table kind of
    the default list leaves the loop body without a file written and with
    the line "no data, skipping." printed; the Trackers table instead makes
    [download_tracker_data] raise [KeyError] before anything is printed,
    and the run with [-t] of the sample store, whose tracker table is
    empty, ends in that exception. *)
Theorem empty_tracker_table_raises :
  download_one Sample.empty_store Sample.align 5
    "UXFData.Exp1.TrialResults" "Exp1_TrialResults_20210315_1403.csv" Sample.home
  = (Ok tt, Sample.home,
     [Scan "UXFData.Exp1.TrialResults" None;
      Print "Exp1_TrialResults_20210315_1403.csv: no data, skipping."])
  /\ download_tracker_data Sample.empty_store Sample.clock Sample.align 5
       "Exp1" PREFIX Sample.home
     = (Raise KeyError, after_clock_reads 1 Sample.home,
        [Scan "UXFData.Exp1.Trackers" None])
  /\ fst (fst (main Sample.store Sample.clock Sample.align 5
                 Sample.opts_tracker Sample.home))
     = Raise KeyError.
Proof. repeat split; vm_compute; reflexivity. Qed.

Section NotFound.

Variable store : string -> option table.
Variable localtime : nat -> struct_time.
Variable align_multi : DataFrame -> list (string * Series) -> exn + DataFrame.
Variable fuel : nat.
Variables experiment prefix : string.

Variable t : string.
Hypothesis Hmissing : store (get_table_name experiment t prefix) = None.

Lemma download_one_not_found (out : string) (s : process) :
  download_one store align_multi fuel (get_table_name experiment t prefix) out s
  = (Ok tt, s,
     [Scan (get_table_name experiment t prefix) None;
      Print (not_found_message out (get_table_name experiment t prefix))]).
Proof.
  unfold download_one, try_except, scan_table_to_df, scan_items, bind,
    table_scan, emit.
  rewrite Hmissing. reflexivity.
Qed.

Lemma download_each_skip (after : list string) :
  forall (before fnames : list string) (s : process),
    length fnames = length (before ++ t :: after) ->
    download_each store align_multi fuel
      (table_names experiment (before ++ t :: after) prefix) fnames s
    = (download_each store align_multi fuel
         (table_names experiment before prefix)
         (firstn (length before) fnames) ;;
       emit (Scan (get_table_name experiment t prefix) None) ;;
       print (not_found_message (nth (length before) fnames EmptyString)
                (get_table_name experiment t prefix)) ;;
       download_each store align_multi fuel
         (table_names experiment after prefix)
         (skipn (S (length before)) fnames)) s.
Proof.
  induction before as [| b before IH]; intros fnames s Hlen;
    destruct fnames as [| f fnames]; try discriminate.
  - unfold download_each, table_names. simpl. rewrite bind_ret_l.
    unfold bind at 1.
    rewrite download_one_not_found. unfold bind, emit, print. simpl.
    now destruct (for_each _ _ s) as [[r s2] t2].
  - unfold download_each, table_names in *. simpl. rewrite bind_assoc.
    apply bind_ext.
    intros _ s1. apply IH. simpl in Hlen. now inversion Hlen.
Qed.

(** C5. When the table of kind [t] does not exist, the body of the loop of
    [download_uxf_tables] issues the scan, prints that the table was not
    found and returns normally, the state of the process untouched; hence
    [download_uxf_tables] over the kinds [before ++ t :: after] is the
    processing of [before], the skip of [t], and the processing of [after].
    [download_tracker_data] returns normally after the same two events. *)
Theorem table_not_found_is_skipped (before after : list string) (s : process) :
  (forall out s1,
      download_one store align_multi fuel (get_table_name experiment t prefix)
        out s1
      = (Ok tt, s1,
         [Scan (get_table_name experiment t prefix) None;
          Print (not_found_message out (get_table_name experiment t prefix))]))
  /\ download_uxf_tables store localtime align_multi fuel experiment
       (before ++ t :: after) prefix s
     = (fnames <- comprehension (get_output_file_name localtime experiment)
                    (before ++ t :: after) ;;
        download_each store align_multi fuel
          (table_names experiment before prefix)
          (firstn (length before) fnames) ;;
        emit (Scan (get_table_name experiment t prefix) None) ;;
        print (not_found_message (nth (length before) fnames EmptyString)
                 (get_table_name experiment t prefix)) ;;
        download_each store align_multi fuel
          (table_names experiment after prefix)
          (skipn (S (length before)) fnames)) s
  /\ (t = "Trackers" ->
      download_tracker_data store localtime align_multi fuel experiment prefix s
      = (Ok tt, after_clock_reads 1 s,
         [Scan (get_table_name experiment t prefix) None;
          Print (not_found_message
                   (output_file_name_at (localtime (clock_reads s)) experiment
                      "Trackers")
                   (get_table_name experiment t prefix))])).
Proof.
  split; [exact download_one_not_found |]. split.
  - unfold download_uxf_tables. cbv zeta. apply bind_ext_on.
    intros fnames s1 t1 E. apply comprehension_length in E.
    now apply download_each_skip.
  - intros Heq. subst t.
    unfold download_tracker_data. cbv zeta. unfold bind at 1.
    rewrite get_output_file_name_run.
    unfold try_except, scan_items, bind, table_scan, emit.
    rewrite Hmissing. reflexivity.
Qed.

End NotFound.

(** ** What a run can emit *)

Section RunEvents.

Variable store : string -> option table.
Variable localtime : nat -> struct_time.
Variable align_multi : DataFrame -> list (string * Series) -> exn + DataFrame.
Variable fuel : nat.

(** A property of events that holds of everything written to the console
    or to a file. *)
Variable P : event -> Prop.
Hypothesis P_print : forall line, P (Print line).
Hypothesis P_frame : forall df, P (PrintFrame df).
Hypothesis P_csv : forall file_name sep df, P (ToCsv file_name sep df).

Lemma emits_scan_table_to_df name unpack :
  (forall start, P (Scan name start)) ->
  emits P (scan_table_to_df store align_multi fuel name unpack).
Proof.
  intros Hp. unfold scan_table_to_df.
  apply emits_bind; [now apply emits_scan_items |].
  intros items. apply emits_lift.
Qed.

Lemma emits_download_one tbl out :
  (forall start, P (Scan tbl start)) ->
  emits P (download_one store align_multi fuel tbl out).
Proof.
  intros Hp. unfold download_one. apply emits_try_except.
  - apply emits_bind; [now apply emits_scan_table_to_df |].
    intros data. now apply emits_save_dataframe.
  - apply emits_emit, P_print.
Qed.

Lemma emits_download_uxf_tables experiment tables prefix :
  (forall t start, In t tables -> P (Scan (get_table_name experiment t prefix) start)) ->
  emits P (download_uxf_tables store localtime align_multi fuel experiment
             tables prefix).
Proof.
  intros Hp. unfold download_uxf_tables.
  apply emits_bind.
  - apply emits_comprehension. intros t. apply emits_get_output_file_name.
  - intros fnames. apply emits_for_each. intros [tbl out] Hin.
    apply in_combine_l in Hin. unfold table_names in Hin.
    apply in_map_iff in Hin.
    destruct Hin as (t & <- & Ht). apply emits_download_one.
    intros start. now apply Hp.
Qed.

Lemma emits_download_tracker_data experiment prefix :
  (forall start, P (Scan (get_table_name experiment "Trackers" prefix) start)) ->
  emits P (download_tracker_data store localtime align_multi fuel experiment
             prefix).
Proof.
  intros Hp. unfold download_tracker_data. cbv zeta.
  apply emits_bind; [apply emits_get_output_file_name |]. intros fname.
  apply emits_try_except.
  - apply emits_bind; [now apply emits_scan_items |]. intros items.
    apply emits_bind; [apply emits_lift |]. intros res.
    now apply emits_save_dataframe.
  - apply emits_emit, P_print.
Qed.

Lemma emits_downloads (o : options) :
  (forall t start,
      In t TABLES -> P (Scan (get_table_name (experiment o) t PREFIX) start)) ->
  (tracker o = true ->
   forall start, P (Scan (get_table_name (experiment o) "Trackers" PREFIX) start)) ->
  emits P (downloads store localtime align_multi fuel o).
Proof.
  intros Htables Htracker. unfold downloads. destruct (p o); simpl negb; cbv iota.
  - apply emits_bind; [apply emits_emit, P_print |]. intros _.
    apply emits_bind.
    { apply emits_scan_table_to_df. intros start. apply Htables. simpl. auto. }
    intros df. apply emits_bind; [apply emits_emit, P_frame |]. intros _.
    apply emits_bind; [apply emits_get_output_file_name |]. intros fname.
    now apply emits_save_dataframe.
  - apply emits_bind; [apply emits_emit, P_print |]. intros _.
    apply emits_bind; [now apply emits_download_uxf_tables |]. intros _.
    apply emits_bind.
    { destruct (tracker o).
      - apply emits_download_tracker_data. now apply Htracker.
      - apply emits_ret. }
    intros _. apply emits_emit, P_print.
Qed.

Lemma emits_enter_folder (o : options) :
  (forall path, P (Mkdir path)) -> (forall path, P (Chdir path)) ->
  emits P (enter_folder o).
Proof.
  intros Hmk Hch. unfold enter_folder. destruct (folder o); [| apply emits_ret].
  apply emits_bind; [apply emits_os_getcwd |]. intros here.
  apply emits_bind; [apply emits_os_path_isdir |]. intros is_dir.
  apply emits_bind.
  { destruct (negb is_dir); [apply emits_os_mkdir, Hmk | apply emits_ret]. }
  intros _. apply emits_bind; [apply emits_os_getcwd |]. intros prev_wd.
  apply emits_bind; [apply emits_os_chdir, Hch |]. intros _. apply emits_ret.
Qed.

Lemma emits_session_arguments (o : options) : emits P (session_arguments o).
Proof.
  unfold session_arguments.
  destruct (access o), (secret o); try apply emits_ret;
    (apply emits_bind; [apply emits_emit, P_print |]);
    intros _; apply emits_raise.
Qed.

Lemma emits_main (o : options) :
  (forall path, P (Mkdir path)) -> (forall path, P (Chdir path)) ->
  (forall sess_args, P (Session sess_args)) ->
  (forall service, P (Resource service)) ->
  (forall t start,
      In t TABLES -> P (Scan (get_table_name (experiment o) t PREFIX) start)) ->
  (tracker o = true ->
   forall start, P (Scan (get_table_name (experiment o) "Trackers" PREFIX) start)) ->
  emits P (main store localtime align_multi fuel o).
Proof.
  intros Hmk Hch Hsess Hres Htables Htracker. unfold main.
  apply emits_bind; [now apply emits_enter_folder |]. intros prev_wd.
  apply emits_bind; [apply emits_session_arguments |]. intros sess_args.
  apply emits_bind; [apply emits_emit, Hsess |]. intros _.
  apply emits_bind; [apply emits_emit, Hres |]. intros _.
  apply emits_bind; [now apply emits_downloads |]. intros _.
  destruct prev_wd; [apply emits_os_chdir, Hch | apply emits_ret].
Qed.

End RunEvents.

(** The table names of different kinds differ. *)
Lemma get_table_name_inj (experiment prefix t t' : string) :
  get_table_name experiment t prefix = get_table_name experiment t' prefix ->
  t = t'.
Proof.
  unfold get_table_name. intros H.
  apply append_inj_l in H. apply (append_inj_l ".") in H.
  apply append_inj_l in H. now apply (append_inj_l ".") in H.
Qed.

Lemma Trackers_not_in_TABLES : ~ In "Trackers" TABLES.
Proof.
  simpl. intros [H | [H | [H | [H | [H | []]]]]]; discriminate.
Qed.

(** C9. The kind Trackers is not in the default list [TABLES], and in a run
    without the tracker flag, however it ends, no scan call is ever made on
    the Trackers table of the experiment, whatever the store holds under
    that name. *)
Theorem trackers_only_on_request
  (store : string -> option table) (localtime : nat -> struct_time)
  (align_multi : DataFrame -> list (string * Series) -> exn + DataFrame)
  (fuel : nat) (o : options) (s s' : process) (r : outcome unit)
  (evs : list event) :
  tracker o = false ->
  main store localtime align_multi fuel o s = (r, s', evs) ->
  ~ In "Trackers" TABLES
  /\ Forall (fun e => scanned_table e
                      <> Some (get_table_name (experiment o) "Trackers" PREFIX))
            evs.
Proof.
  intros Hflag Hrun. split; [exact Trackers_not_in_TABLES |].
  revert s r s' evs Hrun.
  apply emits_main; cbn [scanned_table]; try discriminate.
  - intros t start Hin Heq.
    assert (Hname : get_table_name (experiment o) t PREFIX
                    = get_table_name (experiment o) "Trackers" PREFIX)
      by congruence.
    apply get_table_name_inj in Hname. subst t.
    now apply Trackers_not_in_TABLES.
  - congruence.
Qed.

(** ** The subfolder *)

Lemma enter_folder_run (o : options) (s : process) :
  folder o = true ->
  exists s1 setup,
    enter_folder o s
    = (Ok (Some (cwd s)), s1,
       setup ++ [Chdir (os_path_join (cwd s) (experiment o))])
    /\ Forall (fun e => download_event e = false) setup.
Proof.
  intros Hf. unfold enter_folder. rewrite Hf.
  unfold bind, os_getcwd, os_path_isdir, os_mkdir, os_chdir, ret; simpl.
  set (data_folder := os_path_join (cwd s) (experiment o)).
  destruct (existsb _ _); simpl.
  - eexists. exists []. split; [reflexivity | constructor].
  - eexists. exists [Mkdir data_folder]. split; [reflexivity |].
    repeat constructor.
Qed.

(** C10. With the subfolder flag set, every run, however it ends, first
    sets the folder up, without a scan or a file written, and changes into
    the folder of the experiment before anything else; and a run that
    completes goes on with the session and the downloads, during which the
    directory is never changed, changes back to the directory of the start
    as its last event, and so leaves the working directory as it found
    it. *)
Theorem subfolder_restores_cwd
  (store : string -> option table) (localtime : nat -> struct_time)
  (align_multi : DataFrame -> list (string * Series) -> exn + DataFrame)
  (fuel : nat) (o : options) (s s' : process) (r : outcome unit)
  (evs : list event) :
  folder o = true ->
  main store localtime align_multi fuel o s = (r, s', evs) ->
  exists setup rest,
    evs = setup ++ Chdir (os_path_join (cwd s) (experiment o)) :: rest
    /\ Forall (fun e => download_event e = false) setup
    /\ (r = Ok tt ->
        cwd s' = cwd s
        /\ exists body,
             rest = body ++ [Chdir (cwd s)]
             /\ Forall (fun e => is_chdir e = false) body).
Proof.
  intros Hf Hrun.
  destruct (enter_folder_run o s Hf) as (s1 & setup & Henter & Hsetup).
  unfold main in Hrun. unfold bind at 1 in Hrun. rewrite Henter in Hrun.
  assert (Hbody : emits (fun e => is_chdir e = false)
            (sess_args <- session_arguments o ;;
             emit (Session sess_args) ;;
             emit (Resource "dynamodb") ;;
             downloads store localtime align_multi fuel o)).
  { apply emits_bind; [now apply emits_session_arguments |]. intros sess_args.
    apply emits_bind; [now apply emits_emit |]. intros _.
    apply emits_bind; [now apply emits_emit |]. intros _.
    now apply emits_downloads. }
  rewrite <- !bind_assoc in Hrun.
  unfold bind at 1 in Hrun.
  destruct (bind _ _ s1) as [[[[] | e |] s2] t2] eqn:E;
    simpl in Hrun; inversion Hrun; subst; exists setup; eexists;
    (split; [now rewrite <- app_assoc |]); (split; [exact Hsetup |]);
    try discriminate.
  intros _. split; [reflexivity |]. exists t2. split; [reflexivity |].
  rewrite !bind_assoc in E. eapply Hbody, E.
Qed.

(** ** Equality of labels *)

Lemma scalar_eqb_eq (a b : scalar) : scalar_eqb a b = true <-> a = b.
Proof.
  destruct a, b; simpl; split; intros H; try discriminate; try reflexivity.
  - apply String.eqb_eq in H. now subst.
  - inversion H. apply String.eqb_refl.
  - apply Z.eqb_eq in H. now subst.
  - inversion H. apply Z.eqb_refl.
Qed.

Lemma list_eqb_eq {A} (eqb : A -> A -> bool) :
  (forall x y, eqb x y = true <-> x = y) ->
  forall l m, list_eqb eqb l m = true <-> l = m.
Proof.
  intros Heq. induction l as [| x l IH]; destruct m as [| y m]; simpl;
    split; intros H; try discriminate; try reflexivity.
  - apply andb_true_iff in H. destruct H as [Hx Hl].
    apply Heq in Hx. apply IH in Hl. now subst.
  - inversion H; subst. apply andb_true_iff. split; [now apply Heq | now apply IH].
Qed.

Lemma value_eqb_eq (v w : value) : value_eqb v w = true <-> v = w.
Proof.
  destruct v as [a | l], w as [b | m]; simpl; split; intros H;
    try discriminate.
  - apply scalar_eqb_eq in H. now subst.
  - inversion H. now apply scalar_eqb_eq.
  - apply (list_eqb_eq scalar_eqb scalar_eqb_eq) in H. now subst.
  - inversion H. now apply (list_eqb_eq scalar_eqb scalar_eqb_eq).
Qed.

Lemma index_eqb_eq (i j : list (list value)) : index_eqb i j = true <-> i = j.
Proof.
  unfold index_eqb. apply list_eqb_eq. intros x y.
  apply list_eqb_eq. exact value_eqb_eq.
Qed.

(** ** Lists *)

Lemma filter_all {A} (f : A -> bool) (l : list A) :
  (forall x, In x l -> f x = true) -> filter f l = l.
Proof.
  induction l as [| x l IH]; intros H; simpl; [reflexivity |].
  rewrite (H x) by now left. f_equal. apply IH. intros y Hy. apply H. now right.
Qed.

Lemma filter_map_comm {A B} (g : B -> bool) (h : A -> B) (l : list A) :
  filter g (map h l) = map h (filter (fun x => g (h x)) l).
Proof.
  induction l as [| x l IH]; simpl; [reflexivity |].
  destruct (g (h x)); simpl; now rewrite IH.
Qed.

Lemma uniq_NoDup (l : list string) : NoDup l -> uniq l = l.
Proof.
  induction 1 as [| x l Hx Hl IH]; simpl; [reflexivity |].
  rewrite IH. f_equal. apply filter_all. intros y Hy.
  apply negb_true_iff. apply String.eqb_neq. intros ->. contradiction.
Qed.

Lemma in_uniq (x : string) (l : list string) : In x (uniq l) <-> In x l.
Proof.
  induction l as [| y l IH]; simpl; [tauto |].
  split.
  - intros [-> | H]; [now left |]. apply filter_In in H. right. now apply IH.
  - intros [-> | H]; [now left |].
    destruct (String.eqb y x) eqn:E.
    + apply String.eqb_eq in E. now left.
    + right. apply filter_In. split; [now apply IH | now rewrite E].
Qed.

Lemma nth_seq_map {A} (l : list A) (d : A) :
  map (fun i => nth i l d) (seq 0 (length l)) = l.
Proof.
  induction l as [| x l IH]; simpl; [reflexivity |].
  f_equal. rewrite <- seq_shift, map_map. exact IH.
Qed.

Lemma repeat_app_inj {A} (a : A) (n m : nat) (l l' : list A) :
  ~ In a l -> ~ In a l' ->
  repeat a n ++ l = repeat a m ++ l' -> n = m /\ l = l'.
Proof.
  intros Hl Hl'. revert m. induction n as [| n IH]; intros [| m] H; simpl in H.
  - auto.
  - subst l. exfalso. apply Hl. now left.
  - subst l'. exfalso. apply Hl'. now left.
  - inversion H as [H']. apply IH in H'. destruct H'. auto.
Qed.

(** ** Items *)

Lemma lookup_Some_In (f : string) (r : record) (v : value) :
  lookup f r = Some v -> In (f, v) r.
Proof.
  unfold lookup. destruct (find _ r) as [[f' v'] |] eqn:E; [| discriminate].
  intros H. inversion H; subst. apply find_some in E. destruct E as [Hin Heq].
  simpl in Heq. apply String.eqb_eq in Heq. now subst.
Qed.

Lemma lookup_In_NoDup (f : string) (v : value) (r : record) :
  NoDup (map fst r) -> In (f, v) r -> lookup f r = Some v.
Proof.
  unfold lookup. induction r as [| [f' v'] r IH]; intros Hnd Hin; [contradiction |].
  simpl in *. inversion Hnd as [| ? ? Hnotin Hnd']; subst.
  destruct Hin as [Heq | Hin].
  - inversion Heq; subst. now rewrite String.eqb_refl.
  - destruct (String.eqb f' f) eqn:E.
    + apply String.eqb_eq in E. subst. exfalso. apply Hnotin.
      apply in_map_iff. now exists (f, v).
    + now apply IH.
Qed.

Lemma cell_In_NoDup (f : string) (v : value) (r : record) :
  NoDup (map fst r) -> In (f, v) r -> cell f r = v.
Proof. intros Hnd Hin. unfold cell. now rewrite (lookup_In_NoDup f v r Hnd Hin). Qed.

Lemma expansion_Seq (l : list scalar) : expansion (Seq l) = Nat.max 1 (length l).
Proof.
  unfold expansion. destruct l as [| a l]; [reflexivity |].
  simpl. now rewrite length_map.
Qed.

(** ** The frame of a table, step by step *)

Lemma find_column (f : string) (g : string -> list value) (names : list string) :
  In f names ->
  find (fun c : string * list value => String.eqb (fst c) f)
       (map (fun h => (h, g h)) names)
  = Some (f, g f).
Proof.
  induction names as [| h names IH]; intros Hin; [contradiction |].
  simpl. destruct (String.eqb h f) eqn:E.
  - apply String.eqb_eq in E. now subst.
  - destruct Hin as [-> | Hin]; [now rewrite String.eqb_refl in E | now apply IH].
Qed.

Lemma existsb_eqb_In (f : string) (names : list string) :
  In f names -> existsb (String.eqb f) names = true.
Proof.
  intros Hin. apply existsb_exists. exists f. split; [exact Hin |].
  apply String.eqb_refl.
Qed.

Lemma shape0_from_records (items : list record) :
  shape0 (from_records items) = length items.
Proof. unfold shape0, from_records, RangeIndex. simpl. now rewrite length_map, length_seq. Qed.

(** [set_index] on the frame of the items: the cells of the key column
    become the labels, the other attributes stay as columns. *)
Lemma set_index_from_records (k : string) (items : list record) :
  In k (field_names items) ->
  set_index [k] (from_records items)
  = inr {| index_names := [k];
           index := map (fun r => [cell k r]) items;
           columns :=
             map (fun f => (f, map (cell f) items))
                 (filter (fun f => negb (existsb (String.eqb f) [k]))
                         (field_names items)) |}.
Proof.
  intros Hkey. unfold set_index.
  assert (Hcol : has_column k (from_records items) = true).
  { unfold has_column, from_records. cbn [columns]. rewrite map_map.
    cbn [fst]. rewrite map_id. now apply existsb_eqb_In. }
  cbn [filter]. rewrite Hcol. cbn [negb].
  f_equal. f_equal.
  - rewrite shape0_from_records. unfold column, from_records. cbn [columns].
    fold (field_names items). cbn [map].
    rewrite (find_column _ (fun f => map (cell f) items) _ Hkey). cbn [snd].
    rewrite <- (length_map (cell k) items).
    rewrite <- (map_map (fun i => nth i (map (cell k) items) nan)
                  (fun x => [x])).
    rewrite nth_seq_map. now rewrite map_map.
  - unfold from_records. cbn [columns]. fold (field_names items).
    now rewrite filter_map_comm.
Qed.

Lemma Series_explode_column (k f : string) (items : list record) :
  Series_explode {| s_index := map (fun r => [cell k r]) items;
                    s_values := map (cell f) items |}
  = {| s_index := exploded_index k f items;
       s_values := exploded_values f items |}.
Proof.
  unfold Series_explode, exploded_index, exploded_values. simpl.
  f_equal; induction items as [| r items IH]; simpl; try reflexivity;
    now rewrite IH.
Qed.

Lemma forallb_map {A B} (g : B -> bool) (h : A -> B) (l : list A) :
  forallb g (map h l) = forallb (fun x => g (h x)) l.
Proof. induction l as [| x l IH]; simpl; [reflexivity | now rewrite IH]. Qed.

(** [apply(pd.Series.explode)] on the indexed frame of the items. *)
Lemma apply_explode_columns align_multi (k : string) (items : list record)
  (names : list string) :
  items <> [] ->
  apply_explode align_multi
    {| index_names := [k];
       index := map (fun r => [cell k r]) items;
       columns := map (fun f => (f, map (cell f) items)) names |}
  = match names with
    | [] => inr {| index_names := [k];
                   index := map (fun r => [cell k r]) items;
                   columns := [] |}
    | f0 :: rest =>
        if forallb (fun f => index_eqb (exploded_index k f0 items)
                                       (exploded_index k f items)) rest
        then inr {| index_names := [k];
                    index := exploded_index k f0 items;
                    columns := map (fun f => (f, exploded_values f items)) names |}
        else inl ValueError
    end.
Proof.
  intros Hne. unfold apply_explode. unfold shape0. cbn [index columns index_names].
  rewrite length_map.
  assert (Hlen : (length items =? 0)%nat = false).
  { apply Nat.eqb_neq. destruct items; [congruence | discriminate]. }
  rewrite Hlen. cbn [orb].
  destruct names as [| f0 rest]; [reflexivity |].
  cbn [map length Nat.eqb fst snd].
  rewrite !Series_explode_column. cbn [s_index s_values].
  rewrite map_map. cbn [fst snd]. rewrite forallb_map. cbn [fst snd].
  assert (Hfor : forallb (fun x => index_eqb (exploded_index k f0 items)
                    (s_index (Series_explode
                                {| s_index := map (fun r => [cell k r]) items;
                                   s_values := map (cell x) items |}))) rest
                 = forallb (fun f => index_eqb (exploded_index k f0 items)
                                       (exploded_index k f items)) rest).
  { induction rest as [| x rest IH]; [reflexivity |].
    cbn [forallb]. now rewrite Series_explode_column, IH. }
  rewrite Hfor. clear Hfor.
  destruct (forallb _ rest); [| reflexivity].
  rewrite map_map. cbn [fst snd]. do 3 f_equal.
  apply map_ext. intros x. now rewrite Series_explode_column.
Qed.

(** Lines 46 to 50 on a table with items whose frame has the row
    identifier among its columns. *)
Lemma unpack_items_columns align_multi (items : list record) :
  items <> [] ->
  In "ppid_session_dataname" (field_names items) ->
  unpack_items align_multi items true
  = match filter (fun f => negb (existsb (String.eqb f) ["ppid_session_dataname"]))
                 (field_names items) with
    | [] => inr (reset_index
                   {| index_names := ["ppid_session_dataname"];
                      index := map (fun r => [cell "ppid_session_dataname" r]) items;
                      columns := [] |})
    | f0 :: rest =>
        if forallb (fun f => index_eqb
                               (exploded_index "ppid_session_dataname" f0 items)
                               (exploded_index "ppid_session_dataname" f items))
                   rest
        then inr (reset_index
                    {| index_names := ["ppid_session_dataname"];
                       index := exploded_index "ppid_session_dataname" f0 items;
                       columns := map (fun f => (f, exploded_values f items))
                                      (f0 :: rest) |})
        else inl ValueError
    end.
Proof.
  intros Hne Hkey. unfold unpack_items. cbv zeta.
  rewrite shape0_from_records.
  assert (Hpos : (0 <? length items)%nat = true).
  { apply Nat.ltb_lt. destruct items; [congruence | simpl; lia]. }
  rewrite Hpos. cbn [andb]. unfold explode_by.
  rewrite (set_index_from_records _ items Hkey).
  rewrite (apply_explode_columns align_multi _ items _ Hne).
  destruct (filter _ (field_names items)) as [| f0 rest]; [reflexivity |].
  now destruct (forallb _ rest).
Qed.

Lemma in_field_names (f : string) (v : value) (r : record) (items : list record) :
  In r items -> In (f, v) r -> In f (field_names items).
Proof.
  intros Hr Hf. unfold field_names. apply in_uniq. apply in_flat_map.
  exists r. split; [exact Hr |]. apply in_map_iff. now exists (f, v).
Qed.

Lemma in_columns_beside_key (k f : string) (names : list string) :
  In f names -> f <> k ->
  In f (filter (fun h => negb (existsb (String.eqb h) [k])) names).
Proof.
  intros Hin Hne. apply filter_In. split; [exact Hin |].
  cbn [existsb]. rewrite orb_false_r. apply negb_true_iff.
  now apply String.eqb_neq.
Qed.

(** With pairwise distinct row labels, two columns carry the same labels
    after the explosion only if they expand every row alike. *)
Lemma exploded_index_counts (k f g : string) (items : list record) :
  NoDup (map (cell k) items) ->
  exploded_index k f items = exploded_index k g items ->
  forall r, In r items -> expansion (cell f r) = expansion (cell g r).
Proof.
  assert (Hlabel : forall h l r,
             In [cell k r] (exploded_index k h l) -> In (cell k r) (map (cell k) l)).
  { intros h l r Hin. unfold exploded_index in Hin. apply in_flat_map in Hin.
    destruct Hin as (r' & Hr' & Hrep). apply repeat_spec in Hrep.
    inversion Hrep as [Heq]. rewrite Heq. now apply in_map. }
  induction items as [| r0 items IH]; intros Hnd Heq r Hin; [contradiction |].
  inversion Hnd as [| ? ? Hnotin Hnd']; subst.
  unfold exploded_index in Heq. cbn [flat_map] in Heq.
  apply repeat_app_inj in Heq.
  - destruct Heq as [Hn Hrest]. destruct Hin as [<- | Hin]; [exact Hn |].
    now apply IH.
  - intros Hc. apply Hnotin. exact (Hlabel f items r0 Hc).
  - intros Hc. apply Hnotin. exact (Hlabel g items r0 Hc).
Qed.

Lemma forallb_index_eqb (i0 : list (list value)) (idx : string -> list (list value))
  (rest : list string) :
  forallb (fun f => index_eqb i0 (idx f)) rest = true ->
  forall f, In f rest -> idx f = i0.
Proof.
  intros H f Hin. rewrite forallb_forall in H. symmetry.
  apply index_eqb_eq. now apply H.
Qed.

(** One item whose attributes beside the row identifier expand to different
    numbers of rows makes the unpacking of its table raise [ValueError],
    provided the row identifiers of the table are pairwise distinct. *)
Lemma unpack_items_ragged align_multi (items : list record) (r : record)
  (k vf vg : value) (f g : string) :
  NoDup (map (cell "ppid_session_dataname") items) ->
  In r items ->
  NoDup (map fst r) ->
  lookup "ppid_session_dataname" r = Some k ->
  lookup f r = Some vf ->
  lookup g r = Some vg ->
  f <> "ppid_session_dataname" ->
  g <> "ppid_session_dataname" ->
  expansion vf <> expansion vg ->
  unpack_items align_multi items true = inl ValueError.
Proof.
  intros Hkeys Hr Hnd Hk Hf Hg Hfk Hgk Hdiff.
  apply lookup_Some_In in Hk, Hf, Hg.
  assert (Hne : items <> []) by (destruct items; [contradiction | discriminate]).
  rewrite unpack_items_columns;
    [| exact Hne | exact (in_field_names _ _ _ _ Hr Hk)].
  pose proof (in_columns_beside_key "ppid_session_dataname" f _
                (in_field_names _ _ _ _ Hr Hf) Hfk) as Hfin.
  pose proof (in_columns_beside_key "ppid_session_dataname" g _
                (in_field_names _ _ _ _ Hr Hg) Hgk) as Hgin.
  destruct (filter _ (field_names items)) as [| f0 rest]; [contradiction |].
  destruct (forallb _ rest) eqn:Hall; [| reflexivity].
  exfalso. apply Hdiff.
  pose proof (forallb_index_eqb _
                (fun h => exploded_index "ppid_session_dataname" h items)
                rest Hall) as Hsame.
  assert (Hidx : forall h, In h (f0 :: rest) ->
             exploded_index "ppid_session_dataname" h items
             = exploded_index "ppid_session_dataname" f0 items).
  { intros h [<- | Hh]; [reflexivity | now apply Hsame]. }
  rewrite <- (cell_In_NoDup f vf r Hnd Hf), <- (cell_In_NoDup g vg r Hnd Hg).
  apply (exploded_index_counts "ppid_session_dataname" f g items Hkeys);
    [| exact Hr].
  now rewrite (Hidx f Hfin), (Hidx g Hgin).
Qed.

(** ** One item *)

Lemma nth_repeat_lt {A} (a d : A) (n i : nat) : i < n -> nth i (repeat a n) d = a.
Proof.
  revert i. induction n as [| n IH]; intros i Hi; [lia |].
  destruct i as [| i]; simpl; [reflexivity | apply IH; lia].
Qed.

Lemma field_names_single (r : record) :
  NoDup (map fst r) -> field_names [r] = map fst r.
Proof.
  intros Hnd. unfold field_names. cbn [flat_map]. rewrite app_nil_r.
  now apply uniq_NoDup.
Qed.

Lemma columns_beside_key_single (r : record) :
  filter (fun f => negb (existsb (String.eqb f) ["ppid_session_dataname"]))
         (map fst r)
  = map fst (fields_beside_key r).
Proof. unfold fields_beside_key. now rewrite filter_map_comm. Qed.

Section OneItem.

Variable align_multi : DataFrame -> list (string * Series) -> exn + DataFrame.
Variable r : record.
Variable k : value.
Hypothesis Hnodup : NoDup (map fst r).
Hypothesis Hkey : lookup "ppid_session_dataname" r = Some k.

Lemma cell_key : cell "ppid_session_dataname" r = k.
Proof. unfold cell. now rewrite Hkey. Qed.

Lemma cell_beside_key (fv : string * value) :
  In fv (fields_beside_key r) -> cell (fst fv) r = snd fv.
Proof.
  intros Hin. apply filter_In in Hin. destruct Hin as [Hin _].
  destruct fv as [f v]. now apply cell_In_NoDup.
Qed.

(** An item all of whose attributes beside the row identifier expand to
    [n] rows unpacks to [n] rows, row [i] holding the row identifier and the
    [i]-th element of every attribute. *)
Lemma unpack_single_aligned (n : nat) :
  Forall (fun fv => expansion (snd fv) = n) (fields_beside_key r) ->
  (fields_beside_key r = [] -> n = 1) ->
  exists df,
    unpack_items align_multi [r] true = inr df
    /\ to_rows df = map (row_at k (fields_beside_key r)) (seq 0 n).
Proof.
  intros Hall Hnone.
  assert (Hidx : forall fv, In fv (fields_beside_key r) ->
             exploded_index "ppid_session_dataname" (fst fv) [r]
             = repeat [k] n).
  { intros fv Hin. unfold exploded_index. cbn [flat_map].
    rewrite app_nil_r, cell_key, (cell_beside_key fv Hin).
    rewrite Forall_forall in Hall. now rewrite (Hall fv Hin). }
  assert (Hval : forall fv, In fv (fields_beside_key r) ->
             exploded_values (fst fv) [r] = explode_cell (snd fv)).
  { intros fv Hin. unfold exploded_values. cbn [flat_map].
    now rewrite app_nil_r, (cell_beside_key fv Hin). }
  rewrite unpack_items_columns; [| discriminate |].
  2:{ rewrite (field_names_single r Hnodup). apply in_map_iff.
      exists ("ppid_session_dataname", k). split; [reflexivity |].
      now apply lookup_Some_In. }
  rewrite (field_names_single r Hnodup), columns_beside_key_single.
  destruct (fields_beside_key r) as [| fv0 rest] eqn:E.
  - rewrite (Hnone eq_refl). cbn [map]. eexists. split; [reflexivity |].
    unfold to_rows, reset_index, shape0, RangeIndex. cbn -[String.eqb].
    unfold row_at. cbn [map]. now rewrite cell_key.
  - cbn [map].
    assert (Hfor : forallb
              (fun f => index_eqb
                          (exploded_index "ppid_session_dataname" (fst fv0) [r])
                          (exploded_index "ppid_session_dataname" f [r]))
              (map fst rest) = true).
    { apply forallb_forall. intros f Hf. apply in_map_iff in Hf.
      destruct Hf as (fv & <- & Hfv). apply index_eqb_eq.
      rewrite (Hidx fv0) by now left. rewrite (Hidx fv) by now right.
      reflexivity. }
    rewrite Hfor. eexists. split; [reflexivity |].
    unfold to_rows, reset_index, shape0.
    cbn [index index_names columns length seq combine map app fst snd].
    unfold RangeIndex. rewrite length_map, length_seq.
    rewrite (Hidx fv0) by now left. rewrite repeat_length.
    apply map_ext_in. intros i Hi. apply in_seq in Hi.
    unfold row_at. f_equal.
    + f_equal. rewrite map_repeat. cbn [nth]. apply nth_repeat_lt. lia.
    + change (map (fun c => (fst c, nth i (snd c) nan))
                  (map (fun f => (f, exploded_values f [r]))
                       (map fst (fv0 :: rest)))
              = map (fun fv => (fst fv, nth i (explode_cell (snd fv)) nan))
                    (fv0 :: rest)).
      rewrite !map_map. cbn [fst snd]. apply map_ext_in.
      intros fv Hfv. now rewrite (Hval fv Hfv).
Qed.

End OneItem.

(** ** Items as mappings *)

Lemma lookup_cons (f g : string) (v : value) (r : record) :
  lookup f ((g, v) :: r) = if String.eqb g f then Some v else lookup f r.
Proof. unfold lookup. cbn [find fst snd]. now destruct (String.eqb g f). Qed.

(** Taking the key column out leaves the other attributes as they are. *)
Lemma lookup_beside_key (k f : string) (r : record) :
  f <> k ->
  lookup f (filter (fun fv => negb (existsb (String.eqb (fst fv)) [k])) r)
  = lookup f r.
Proof.
  intros Hne. induction r as [| [g v] r IH]; [reflexivity |].
  cbn [filter].
  replace (existsb (String.eqb (fst (g, v))) [k]) with (String.eqb g k)
    by (cbn [existsb fst]; now rewrite orb_false_r).
  destruct (String.eqb g k) eqn:E; cbn [negb].
  - apply String.eqb_eq in E. subst g. rewrite lookup_cons.
    assert (Hkf : String.eqb k f = false).
    { apply String.eqb_neq. congruence. }
    now rewrite Hkf.
  - rewrite !lookup_cons. now rewrite IH.
Qed.

(** The key in front of the other attributes is the item again, up to the
    order of its attributes. *)
Lemma key_first_Permutation (k : string) (kv : value) (r : record) :
  NoDup (map fst r) ->
  lookup k r = Some kv ->
  Permutation
    ((k, kv) :: filter (fun fv => negb (existsb (String.eqb (fst fv)) [k])) r)
    r.
Proof.
  induction r as [| [g v] r IH]; intros Hnd Hk; [discriminate |].
  inversion Hnd as [| ? ? Hnotin Hnd']; subst.
  rewrite lookup_cons in Hk. cbn [filter].
  replace (existsb (String.eqb (fst (g, v))) [k]) with (String.eqb g k)
    by (cbn [existsb fst]; now rewrite orb_false_r).
  destruct (String.eqb g k) eqn:E; cbn [negb].
  - apply String.eqb_eq in E. subst g. inversion Hk; subst.
    rewrite filter_all; [reflexivity |].
    intros [h w] Hin. cbn [existsb fst]. rewrite orb_false_r.
    apply negb_true_iff. apply String.eqb_neq. intros ->.
    apply Hnotin. apply in_map_iff. now exists (k, w).
  - eapply perm_trans; [apply perm_swap |]. apply perm_skip. now apply IH.
Qed.

(** ** Unpacking *)

(** C2 as stated fails: the record with the sequences [a] and [b] of three
    elements and the scalar [c] does not unpack to the three rows, the
    unpacking raises [ValueError] (labels of a single level, for which
    [Sample.align] is not consulted). *)
Lemma scalar_beside_sequences_raises :
  ~ (exists df,
        unpack_items Sample.align [Sample.mixed] true = inr df
        /\ to_rows df = Sample.rows_with_c).
Proof.
  intros (df & Hdf & _). vm_compute in Hdf. discriminate.
Qed.

(** C2, amended.  An item with a scalar row identifier whose other
    attributes all expand to [n] rows unpacks to exactly [n] rows, row [i]
    holding the row identifier and the [i]-th element of every attribute
    (a scalar and an empty sequence being one element); so the item with
    [a = [1,2,3]] and [b = [x,y,z]] and no scalar attribute gives the three
    rows of the example without [c], whereas with the scalar [c = 5] beside
    them the unpacking raises [ValueError]. *)
Theorem unpack_one_row_per_position
  (align_multi : DataFrame -> list (string * Series) -> exn + DataFrame)
  (r : record) (a : scalar) (n : nat) :
  NoDup (map fst r) ->
  lookup "ppid_session_dataname" r = Some (Scalar a) ->
  fields_beside_key r <> [] ->
  Forall (fun fv => expansion (snd fv) = n) (fields_beside_key r) ->
  (exists df,
      unpack_items align_multi [r] true = inr df
      /\ to_rows df = map (row_at (Scalar a) (fields_beside_key r)) (seq 0 n))
  /\ (exists df,
        unpack_items align_multi [Sample.sequences] true = inr df
        /\ to_rows df = Sample.rows_without_c)
  /\ unpack_items align_multi [Sample.mixed] true = inl ValueError.
Proof.
  intros Hnd Hk Hne Hall. split; [| split].
  - apply unpack_single_aligned; try assumption. intros Hnil. contradiction.
  - eexists. split; vm_compute; reflexivity.
  - vm_compute. reflexivity.
Qed.

(** C6. An item with a scalar row identifier and no sequence-valued
    attribute unpacks to exactly one row, and that row is the item: the same
    attributes with the same values, the row identifier in front. *)
Theorem scalar_record_unpacks_to_itself
  (align_multi : DataFrame -> list (string * Series) -> exn + DataFrame)
  (r : record) (a : scalar) :
  NoDup (map fst r) ->
  lookup "ppid_session_dataname" r = Some (Scalar a) ->
  Forall (fun fv => exists b, snd fv = Scalar b) r ->
  exists df row,
    unpack_items align_multi [r] true = inr df
    /\ to_rows df = [row]
    /\ Permutation row r
    /\ (forall f, lookup f row = lookup f r).
Proof.
  intros Hnd Hk Hscalars.
  assert (Hbeside : Forall (fun fv => exists b, snd fv = Scalar b)
                      (fields_beside_key r)).
  { apply Forall_forall. intros fv Hin. apply filter_In in Hin.
    rewrite Forall_forall in Hscalars. now apply Hscalars. }
  destruct (unpack_single_aligned align_multi r (Scalar a) Hnd Hk 1)
    as (df & Hdf & Hrows).
  { eapply Forall_impl; [| exact Hbeside]. intros fv [b Hb].
    rewrite Hb. reflexivity. }
  { reflexivity. }
  exists df, (("ppid_session_dataname", Scalar a) :: fields_beside_key r).
  split; [exact Hdf |]. split; [| split].
  - rewrite Hrows. cbn [seq map]. unfold row_at. do 2 f_equal.
    rewrite <- (map_id (fields_beside_key r)) at 2.
    apply map_ext_in. intros [f v] Hin. rewrite Forall_forall in Hbeside.
    destruct (Hbeside (f, v) Hin) as [b Hb]. cbn [snd] in Hb. subst v.
    reflexivity.
  - now apply key_first_Permutation.
  - intros f. rewrite lookup_cons.
    destruct (String.eqb "ppid_session_dataname" f) eqn:E.
    + apply String.eqb_eq in E. subst f. now rewrite Hk.
    + apply lookup_beside_key. apply String.eqb_neq in E. congruence.
Qed.

(** C7 as stated fails: the sequences [a] and [b] of this item have the
    lengths 0 and 1, and the unpacking returns a row for it, NaN beside the
    element of [b], instead of raising. *)
Lemma lengths_zero_and_one_pass :
  (exists lf lg,
      lookup "a" Sample.empty_and_one = Some (Seq lf)
      /\ lookup "b" Sample.empty_and_one = Some (Seq lg)
      /\ length lf <> length lg)
  /\ exists df,
       unpack_items Sample.align [Sample.empty_and_one] true = inr df
       /\ to_rows df
          = [[(Sample.K, Scalar (SStr "v")); ("a", nan); ("b", Scalar (SStr "x"))]].
Proof.
  split.
  - exists [], [SStr "x"]. repeat split; try reflexivity. discriminate.
  - eexists. split; vm_compute; reflexivity.
Qed.

(** C7, amended.  In a table whose items all carry a scalar row identifier,
    pairwise distinct, an item with two sequence-valued attributes that
    expand to different numbers of rows (a sequence of [n] elements to [n]
    rows, the empty sequence to one) makes the unpacking raise [ValueError];
    the loop body of [download_uxf_tables] does not catch it, so that no row
    of the table is written. *)
Theorem ragged_sequences_raise
  (align_multi : DataFrame -> list (string * Series) -> exn + DataFrame)
  (items : list record) (r : record) (f g : string) (lf lg : list scalar) :
  Forall (fun r' => exists a, lookup "ppid_session_dataname" r' = Some (Scalar a))
         items ->
  NoDup (map (cell "ppid_session_dataname") items) ->
  In r items ->
  NoDup (map fst r) ->
  lookup f r = Some (Seq lf) ->
  lookup g r = Some (Seq lg) ->
  f <> "ppid_session_dataname" ->
  g <> "ppid_session_dataname" ->
  Nat.max 1 (length lf) <> Nat.max 1 (length lg) ->
  unpack_items align_multi items true = inl ValueError
  /\ forall store name tbl ps fuel out s,
       store name = Some tbl ->
       pages_from tbl None ps ->
       length ps <= S fuel ->
       concat (map Items ps) = items ->
       download_one store align_multi fuel name out s
       = (Raise ValueError, s, scan_calls name ps).
Proof.
  intros Hids Hkeys Hr Hnd Hf Hg Hfk Hgk Hdiff.
  rewrite Forall_forall in Hids. destruct (Hids r Hr) as [a Hk].
  assert (Hraise : unpack_items align_multi items true = inl ValueError).
  { apply (unpack_items_ragged align_multi items r (Scalar a) (Seq lf) (Seq lg)
             f g); try assumption.
    now rewrite !expansion_Seq. }
  split; [exact Hraise |].
  intros store name tbl ps fuel out s Hstore Hps Hfuel Hitems.
  unfold download_one, try_except, scan_table_to_df, bind.
  rewrite (scan_items_pages store name tbl Hstore ps fuel s Hps Hfuel).
  rewrite Hitems, Hraise. cbn. now rewrite app_nil_r.
Qed.

(** ** The theorems at the sample inputs *)

(** The scanner on the trial results of the sample store: three pages of 2,
    1 and 1 items, three scan calls, four items. *)
Lemma scanner_follows_pages_witness :
  Sample.store "UXFData.Exp1.TrialResults" = Some Sample.three_pages
  /\ pages_from Sample.three_pages None Sample.pages
  /\ length Sample.pages <= 3
  /\ (scan_items Sample.store 2 "UXFData.Exp1.TrialResults" Sample.home
        = (Ok (concat (map Items Sample.pages)), Sample.home,
           scan_calls "UXFData.Exp1.TrialResults" Sample.pages)
      /\ length (scan_calls "UXFData.Exp1.TrialResults" Sample.pages)
         = length Sample.pages
      /\ Forall (fun pg => LastEvaluatedKey pg <> None) (removelast Sample.pages)
      /\ LastEvaluatedKey (last Sample.pages (Sample.three_pages None)) = None
      /\ length (concat (map Items Sample.pages))
         = list_sum (item_counts Sample.pages)
      /\ (exists df,
            scan_table_to_df Sample.store Sample.align 2
              "UXFData.Exp1.TrialResults" false Sample.home
            = (Ok df, Sample.home,
               scan_calls "UXFData.Exp1.TrialResults" Sample.pages)
            /\ shape0 df = list_sum (item_counts Sample.pages))).
Proof.
  assert (Hps : pages_from Sample.three_pages None Sample.pages).
  { apply (pages_next Sample.three_pages None "p1_s2"); [reflexivity |].
    apply (pages_next Sample.three_pages (Some "p1_s2") "p2_s1"); [reflexivity |].
    apply (pages_last Sample.three_pages (Some "p2_s1")). reflexivity. }
  split; [reflexivity |]. split; [exact Hps |]. split; [simpl; lia |].
  apply (scanner_follows_pages Sample.store Sample.align
           "UXFData.Exp1.TrialResults" Sample.three_pages Sample.pages 2
           Sample.home); [reflexivity | exact Hps | simpl; lia].
Defined.

(** The item of sequences alone: three rows. *)
Lemma unpack_one_row_per_position_witness :
  NoDup (map fst Sample.sequences)
  /\ lookup "ppid_session_dataname" Sample.sequences = Some (Scalar (SStr "v"))
  /\ fields_beside_key Sample.sequences <> []
  /\ Forall (fun fv => expansion (snd fv) = 3) (fields_beside_key Sample.sequences)
  /\ ((exists df,
          unpack_items Sample.align [Sample.sequences] true = inr df
          /\ to_rows df
             = map (row_at (Scalar (SStr "v")) (fields_beside_key Sample.sequences))
                   (seq 0 3))
      /\ (exists df,
            unpack_items Sample.align [Sample.sequences] true = inr df
            /\ to_rows df = Sample.rows_without_c)
      /\ unpack_items Sample.align [Sample.mixed] true = inl ValueError).
Proof.
  assert (Hnd : NoDup (map fst Sample.sequences)).
  { repeat constructor; simpl; intuition discriminate. }
  assert (Hne : fields_beside_key Sample.sequences <> [])
    by (vm_compute; discriminate).
  assert (Hall : Forall (fun fv => expansion (snd fv) = 3)
                   (fields_beside_key Sample.sequences))
    by (vm_compute; repeat constructor).
  split; [exact Hnd |]. split; [reflexivity |]. split; [exact Hne |].
  split; [exact Hall |].
  apply (unpack_one_row_per_position Sample.align Sample.sequences (SStr "v") 3);
    [exact Hnd | reflexivity | exact Hne | exact Hall].
Defined.

(** The participant of the sample store: one row, the item itself. *)
Lemma scalar_record_unpacks_to_itself_witness :
  NoDup (map fst Sample.participant)
  /\ lookup "ppid_session_dataname" Sample.participant
     = Some (Scalar (SStr "p1_s1_participant_details"))
  /\ Forall (fun fv => exists b, snd fv = Scalar b) Sample.participant
  /\ exists df row,
       unpack_items Sample.align [Sample.participant] true = inr df
       /\ to_rows df = [row]
       /\ Permutation row Sample.participant
       /\ (forall f, lookup f row = lookup f Sample.participant).
Proof.
  assert (Hnd : NoDup (map fst Sample.participant)).
  { repeat constructor; simpl; intuition discriminate. }
  assert (Hsc : Forall (fun fv => exists b, snd fv = Scalar b) Sample.participant).
  { repeat constructor; simpl; eexists; reflexivity. }
  split; [exact Hnd |]. split; [reflexivity |]. split; [exact Hsc |].
  apply (scalar_record_unpacks_to_itself Sample.align Sample.participant
           (SStr "p1_s1_participant_details"));
    [exact Hnd | reflexivity | exact Hsc].
Defined.

(** The item with sequences of two and of three elements, alone in its
    table. *)
Lemma ragged_sequences_raise_witness :
  Forall (fun r' => exists a, lookup "ppid_session_dataname" r' = Some (Scalar a))
         [Sample.ragged]
  /\ NoDup (map (cell "ppid_session_dataname") [Sample.ragged])
  /\ In Sample.ragged [Sample.ragged]
  /\ NoDup (map fst Sample.ragged)
  /\ lookup "a" Sample.ragged = Some (Seq [SNum 1; SNum 2])
  /\ lookup "b" Sample.ragged = Some (Seq [SStr "x"; SStr "y"; SStr "z"])
  /\ "a" <> "ppid_session_dataname"
  /\ "b" <> "ppid_session_dataname"
  /\ Nat.max 1 2 <> Nat.max 1 3
  /\ unpack_items Sample.align [Sample.ragged] true = inl ValueError.
Proof.
  assert (Hids : Forall (fun r' => exists a,
                           lookup "ppid_session_dataname" r' = Some (Scalar a))
                   [Sample.ragged]).
  { repeat constructor. exists (SStr "v"). reflexivity. }
  assert (Hkeys : NoDup (map (cell "ppid_session_dataname") [Sample.ragged])).
  { repeat constructor. simpl. tauto. }
  assert (Hnd : NoDup (map fst Sample.ragged)).
  { repeat constructor; simpl; intuition discriminate. }
  assert (Hin : In Sample.ragged [Sample.ragged]) by (left; reflexivity).
  assert (Ha : "a" <> "ppid_session_dataname") by discriminate.
  assert (Hb : "b" <> "ppid_session_dataname") by discriminate.
  assert (Hdiff : Nat.max 1 2 <> Nat.max 1 3) by (simpl; lia).
  split; [exact Hids |]. split; [exact Hkeys |]. split; [exact Hin |].
  split; [exact Hnd |]. split; [reflexivity |]. split; [reflexivity |].
  split; [exact Ha |]. split; [exact Hb |]. split; [exact Hdiff |].
  apply (ragged_sequences_raise Sample.align [Sample.ragged] Sample.ragged
           "a" "b" [SNum 1; SNum 2] [SStr "x"; SStr "y"; SStr "z"]);
    [exact Hids | exact Hkeys | exact Hin | exact Hnd | reflexivity
     | reflexivity | exact Ha | exact Hb | exact Hdiff].
Defined.

(** The settings table, which the sample store does not have, between the
    two kinds before it and the two after it in the default list. *)
Lemma table_not_found_is_skipped_witness :
  Sample.store (get_table_name "Exp1" "Settings" PREFIX) = None
  /\ download_uxf_tables Sample.store Sample.clock Sample.align 5 "Exp1"
       (["ParticipantDetails"; "TrialResults"] ++ "Settings"
          :: ["SessionLog"; "SummaryStatistics"]) PREFIX Sample.home
     = (fnames <- comprehension (get_output_file_name Sample.clock "Exp1")
                    (["ParticipantDetails"; "TrialResults"] ++ "Settings"
                       :: ["SessionLog"; "SummaryStatistics"]) ;;
        download_each Sample.store Sample.align 5
          (table_names "Exp1" ["ParticipantDetails"; "TrialResults"] PREFIX)
          (firstn 2 fnames) ;;
        emit (Scan (get_table_name "Exp1" "Settings" PREFIX) None) ;;
        print (not_found_message (nth 2 fnames EmptyString)
                 (get_table_name "Exp1" "Settings" PREFIX)) ;;
        download_each Sample.store Sample.align 5
          (table_names "Exp1" ["SessionLog"; "SummaryStatistics"] PREFIX)
          (skipn 3 fnames)) Sample.home.
Proof.
  split; [reflexivity |].
  apply (table_not_found_is_skipped Sample.store Sample.clock Sample.align 5
           "Exp1" PREFIX "Settings" eq_refl
           ["ParticipantDetails"; "TrialResults"]
           ["SessionLog"; "SummaryStatistics"] Sample.home).
Defined.

(** The command line with [--access] alone. *)
Lemma partial_credentials_exit_witness :
  partial_credentials Sample.opts_access_only
  /\ exists s' setup,
       main Sample.store Sample.clock Sample.align 5 Sample.opts_access_only
         Sample.home
       = (Raise (SystemExit (-1)), s', setup ++ [Print usage_error])
       /\ Forall (fun e => network e = false) setup
       /\ exit_status (SystemExit (-1)) = 255%Z.
Proof.
  assert (Hpartial : partial_credentials Sample.opts_access_only).
  { left. split; [discriminate | reflexivity]. }
  split; [exact Hpartial |].
  apply (partial_credentials_exit Sample.store Sample.clock Sample.align 5
           Sample.opts_access_only Sample.home Hpartial).
Defined.

(** The default run on the sample store, whose tracker table exists. *)
Lemma trackers_only_on_request_witness :
  tracker Sample.opts = false
  /\ ~ In "Trackers" TABLES
  /\ Forall (fun e => scanned_table e
                      <> Some (get_table_name (experiment Sample.opts)
                                 "Trackers" PREFIX))
            (snd (main Sample.store Sample.clock Sample.align 5 Sample.opts
                    Sample.home)).
Proof.
  split; [reflexivity |].
  apply (trackers_only_on_request Sample.store Sample.clock Sample.align 5
           Sample.opts Sample.home
           (snd (fst (main Sample.store Sample.clock Sample.align 5 Sample.opts
                        Sample.home)))
           (fst (fst (main Sample.store Sample.clock Sample.align 5 Sample.opts
                        Sample.home)))
           (snd (main Sample.store Sample.clock Sample.align 5 Sample.opts
                   Sample.home)));
    [reflexivity | vm_compute; reflexivity].
Defined.

(** The same run: it completes, and the working directory is the one of the
    start again. *)
Lemma subfolder_restores_cwd_witness :
  folder Sample.opts = true
  /\ fst (fst (main Sample.store Sample.clock Sample.align 5 Sample.opts
                 Sample.home)) = Ok tt
  /\ exists setup rest,
       snd (main Sample.store Sample.clock Sample.align 5 Sample.opts Sample.home)
       = setup ++ Chdir (os_path_join (cwd Sample.home) (experiment Sample.opts))
                 :: rest
       /\ Forall (fun e => download_event e = false) setup
       /\ (Ok tt = Ok tt ->
           cwd (snd (fst (main Sample.store Sample.clock Sample.align 5
                            Sample.opts Sample.home)))
           = cwd Sample.home
           /\ exists body,
                rest = body ++ [Chdir (cwd Sample.home)]
                /\ Forall (fun e => is_chdir e = false) body).
Proof.
  split; [reflexivity |]. split; [vm_compute; reflexivity |].
  apply (subfolder_restores_cwd Sample.store Sample.clock Sample.align 5
           Sample.opts Sample.home
           (snd (fst (main Sample.store Sample.clock Sample.align 5 Sample.opts
                        Sample.home)))
           (Ok tt)
           (snd (main Sample.store Sample.clock Sample.align 5 Sample.opts
                   Sample.home)));
    [reflexivity | vm_compute; reflexivity].
Defined.

(** * Further properties *)

(** ** Names of tables and files *)

Lemma dotted_names (e e' t t' : string) :
  has_dot e = false -> has_dot e' = false ->
  (e ++ "." ++ t)%string = (e' ++ "." ++ t')%string ->
  e = e' /\ t = t'.
Proof.
  revert e'. induction e as [| c e IH]; intros [| c' e'] He He' H.
  - simpl in H. inversion H. auto.
  - simpl in H. inversion H; subst. simpl in He'. discriminate.
  - simpl in H. inversion H; subst. simpl in He. discriminate.
  - simpl in H. inversion H; subst. simpl in He, He'.
    apply orb_false_iff in He, He'.
    destruct (IH e' (proj2 He) (proj2 He') H2) as [-> ->]. auto.
Qed.

(** X1. For experiments without a dot in their name, the table name tells
    the experiment and the table kind apart: two names under the same
    prefix are equal only if both the experiments and the kinds are. *)
Theorem table_name_tells_experiment_and_kind (prefix e e' t t' : string) :
  has_dot e = false ->
  has_dot e' = false ->
  get_table_name e t prefix = get_table_name e' t' prefix ->
  e = e' /\ t = t'.
Proof.
  intros He He' H. unfold get_table_name in H.
  apply append_inj_l in H. apply (append_inj_l ".") in H.
  now apply dotted_names.
Qed.

Lemma table_name_tells_experiment_and_kind_witness :
  has_dot "Exp1" = false
  /\ get_table_name "Exp1" "Settings" "UXFData"
     = get_table_name "Exp1" "Settings" "UXFData"
  /\ ("Exp1" = "Exp1" /\ "Settings" = "Settings").
Proof.
  split; [reflexivity |]. split; [reflexivity |].
  apply (table_name_tells_experiment_and_kind "UXFData" "Exp1" "Exp1"
           "Settings" "Settings"); reflexivity.
Defined.

(** X2. The file name does not depend on the minute or the second: two
    readings of the clock in the same hour of the same day give the same
    file name, so that a second export within the hour goes to the file of
    the first. *)
Theorem file_name_same_within_the_hour
  (now now' : struct_time) (experiment table : string) :
  tm_year now = tm_year now' ->
  tm_mon now = tm_mon now' ->
  tm_mday now = tm_mday now' ->
  tm_hour now = tm_hour now' ->
  output_file_name_at now experiment table
  = output_file_name_at now' experiment table.
Proof.
  intros Hy Hm Hd Hh. rewrite !output_file_name_at_fields.
  now rewrite Hy, Hm, Hd, Hh.
Qed.

Lemma file_name_same_within_the_hour_witness :
  tm_min Sample.now <> tm_min Sample.later
  /\ output_file_name_at Sample.now "Exp1" "TrialResults"
     = output_file_name_at Sample.later "Exp1" "TrialResults".
Proof.
  split; [discriminate |].
  apply (file_name_same_within_the_hour Sample.now Sample.later "Exp1"
           "TrialResults"); reflexivity.
Defined.

(** X3. The files of different table kinds differ: whatever the clock reads
    for each, two of the kinds the script knows get the same file name only
    if they are the same kind, so that no table of a run overwrites the file
    of another. *)
Theorem file_names_of_kinds_differ
  (now now' : struct_time) (experiment t t' : string) :
  In t table_kinds ->
  In t' table_kinds ->
  output_file_name_at now experiment t = output_file_name_at now' experiment t' ->
  t = t'.
Proof.
  intros Ht Ht' H. unfold output_file_name_at in H. cbv zeta in H.
  apply append_inj_l in H.
  set (ts := strftime _ now) in H. set (ts' := strftime _ now') in H.
  unfold table_kinds, TABLES in Ht, Ht'. cbn [app In] in Ht, Ht'.
  repeat (destruct Ht as [Ht | Ht]; [subst t |]); try contradiction;
    repeat (destruct Ht' as [Ht' | Ht']; [subst t' |]); try contradiction;
    try reflexivity; cbn in H; discriminate H.
Qed.

Lemma file_names_of_kinds_differ_witness :
  In "Settings" table_kinds
  /\ output_file_name_at Sample.now "Exp1" "Settings"
     = output_file_name_at Sample.later "Exp1" "Settings"
  /\ "Settings" = "Settings".
Proof.
  assert (Hin : In "Settings" table_kinds) by (vm_compute; tauto).
  split; [exact Hin |]. split; [reflexivity |].
  apply (file_names_of_kinds_differ Sample.now Sample.later "Exp1" "Settings"
           "Settings" Hin Hin). reflexivity.
Defined.

(** ** Whole tables *)

Lemma exploded_index_ext (k f g : string) (items : list record) :
  (forall r, In r items -> expansion (cell f r) = expansion (cell g r)) ->
  exploded_index k f items = exploded_index k g items.
Proof.
  unfold exploded_index. induction items as [| r items IH]; intros H;
    [reflexivity |].
  cbn [flat_map]. rewrite (H r) by now left.
  f_equal. apply IH. intros r' Hr'. apply H. now right.
Qed.

Lemma length_exploded_index (k f : string) (items : list record) :
  length (exploded_index k f items)
  = list_sum (map (fun r => expansion (cell f r)) items).
Proof.
  unfold exploded_index. induction items as [| r items IH]; [reflexivity |].
  cbn [flat_map map list_sum]. now rewrite length_app, repeat_length, IH.
Qed.

Lemma shape0_reset_index (df : DataFrame) : shape0 (reset_index df) = shape0 df.
Proof.
  unfold reset_index, shape0 at 1, RangeIndex. cbn [index].
  now rewrite length_map, length_seq.
Qed.

Lemma list_sum_ones {A} (l : list A) : list_sum (map (fun _ => 1) l) = length l.
Proof. induction l as [| x l IH]; simpl; [reflexivity | now rewrite IH]. Qed.

Lemma aligned_forallb (k f0 : string) (rest : list string) (items : list record) :
  (forall r f, In r items -> In f rest ->
               expansion (cell f0 r) = expansion (cell f r)) ->
  forallb (fun f => index_eqb (exploded_index k f0 items)
                              (exploded_index k f items)) rest = true.
Proof.
  intros H. apply forallb_forall. intros f Hf. apply index_eqb_eq.
  apply exploded_index_ext. intros r Hr. now apply H.
Qed.

(** X4. A table with items, the row identifier among their attributes, in
    which every item expands all columns beside the row identifier to the
    same number of rows (an attribute the item lacks counting as one row)
    unpacks without error; the frame has the row identifier as its first
    column, then the other columns, and as many rows as the items expand to
    in sum. *)
Theorem aligned_table_row_count
  (align_multi : DataFrame -> list (string * Series) -> exn + DataFrame)
  (items : list record) :
  items <> [] ->
  In "ppid_session_dataname" (field_names items) ->
  (forall r f g, In r items ->
                 In f (columns_beside_key items) ->
                 In g (columns_beside_key items) ->
                 expansion (cell f r) = expansion (cell g r)) ->
  exists df,
    unpack_items align_multi items true = inr df
    /\ map fst (columns df) = "ppid_session_dataname" :: columns_beside_key items
    /\ shape0 df = list_sum (map (rows_of (columns_beside_key items)) items).
Proof.
  intros Hne Hkey Haligned.
  rewrite (unpack_items_columns align_multi items Hne Hkey).
  fold (columns_beside_key items).
  destruct (columns_beside_key items) as [| f0 rest] eqn:E.
  - eexists. split; [reflexivity |]. split; [reflexivity |].
    rewrite shape0_reset_index. unfold shape0, rows_of. cbn [index].
    now rewrite length_map, list_sum_ones.
  - rewrite aligned_forallb.
    2:{ intros r f Hr Hf. apply Haligned; [exact Hr | now left | now right]. }
    eexists. split; [reflexivity |]. split.
    + unfold reset_index. cbn [columns index_names length seq combine map app fst snd].
      f_equal. rewrite map_map. cbn [fst]. now rewrite map_id.
    + rewrite shape0_reset_index. unfold shape0, rows_of. cbn [index].
      apply length_exploded_index.
Qed.

Lemma aligned_table_row_count_witness :
  [Sample.trials "p1_s1"; Sample.trials "p1_s2"] <> []
  /\ In "ppid_session_dataname"
        (field_names [Sample.trials "p1_s1"; Sample.trials "p1_s2"])
  /\ exists df,
       unpack_items Sample.align [Sample.trials "p1_s1"; Sample.trials "p1_s2"] true
       = inr df
       /\ map fst (columns df)
          = "ppid_session_dataname"
              :: columns_beside_key [Sample.trials "p1_s1"; Sample.trials "p1_s2"]
       /\ shape0 df
          = list_sum (map (rows_of (columns_beside_key
                                      [Sample.trials "p1_s1"; Sample.trials "p1_s2"]))
                          [Sample.trials "p1_s1"; Sample.trials "p1_s2"]).
Proof.
  assert (Hne : [Sample.trials "p1_s1"; Sample.trials "p1_s2"] <> [])
    by discriminate.
  assert (Hkey : In "ppid_session_dataname"
                    (field_names [Sample.trials "p1_s1"; Sample.trials "p1_s2"]))
    by (vm_compute; tauto).
  split; [exact Hne |]. split; [exact Hkey |].
  apply (aligned_table_row_count Sample.align
           [Sample.trials "p1_s1"; Sample.trials "p1_s2"] Hne Hkey).
  intros r f g Hr Hf Hg.
  change (In f ["trial_num"; "outcome"]) in Hf.
  change (In g ["trial_num"; "outcome"]) in Hg.
  destruct Hr as [<- | [<- | []]];
    destruct Hf as [<- | [<- | []]]; destruct Hg as [<- | [<- | []]];
    reflexivity.
Defined.

(** X5. In a table whose items all carry a scalar row identifier, pairwise
    distinct, an item that expands two columns to different numbers of rows
    makes the unpacking raise [ValueError]; an attribute the item lacks
    counts as one row, so that an item without an attribute that another
    item has must not hold a list of two or more elements. *)
Theorem misaligned_table_raises
  (align_multi : DataFrame -> list (string * Series) -> exn + DataFrame)
  (items : list record) (r : record) (f g : string) :
  Forall (fun r' => exists a, lookup "ppid_session_dataname" r' = Some (Scalar a))
         items ->
  NoDup (map (cell "ppid_session_dataname") items) ->
  In r items ->
  In f (columns_beside_key items) ->
  In g (columns_beside_key items) ->
  expansion (cell f r) <> expansion (cell g r) ->
  unpack_items align_multi items true = inl ValueError.
Proof.
  intros Hids Hkeys Hr Hf Hg Hdiff.
  rewrite Forall_forall in Hids. destruct (Hids r Hr) as [a Hk].
  apply lookup_Some_In in Hk.
  assert (Hne : items <> []) by (destruct items; [contradiction | discriminate]).
  rewrite unpack_items_columns;
    [| exact Hne | exact (in_field_names _ _ _ _ Hr Hk)].
  unfold columns_beside_key in Hf, Hg.
  destruct (filter _ (field_names items)) as [| f0 rest]; [contradiction |].
  destruct (forallb _ rest) eqn:Hall; [| reflexivity].
  exfalso. apply Hdiff.
  pose proof (forallb_index_eqb _
                (fun h => exploded_index "ppid_session_dataname" h items)
                rest Hall) as Hsame.
  assert (Hidx : forall h, In h (f0 :: rest) ->
             exploded_index "ppid_session_dataname" h items
             = exploded_index "ppid_session_dataname" f0 items).
  { intros h [<- | Hh]; [reflexivity | now apply Hsame]. }
  apply (exploded_index_counts "ppid_session_dataname" f g items Hkeys);
    [| exact Hr].
  now rewrite (Hidx f Hf), (Hidx g Hg).
Qed.

Lemma misaligned_table_raises_witness :
  lookup "outcome" Sample.without_outcome = None
  /\ expansion (cell "trial_num" Sample.without_outcome)
     <> expansion (cell "outcome" Sample.without_outcome)
  /\ unpack_items Sample.align [Sample.trials "p1_s1"; Sample.without_outcome] true
     = inl ValueError.
Proof.
  assert (Hdiff : expansion (cell "trial_num" Sample.without_outcome)
                  <> expansion (cell "outcome" Sample.without_outcome))
    by (vm_compute; discriminate).
  split; [reflexivity |]. split; [exact Hdiff |].
  apply (misaligned_table_raises Sample.align
           [Sample.trials "p1_s1"; Sample.without_outcome]
           Sample.without_outcome "trial_num" "outcome").
  - repeat constructor; eexists; reflexivity.
  - repeat constructor; simpl; intuition discriminate.
  - right. left. reflexivity.
  - vm_compute. tauto.
  - vm_compute. tauto.
  - exact Hdiff.
Defined.

Lemma to_rows_cells (ns names : list string) (idx : list (list value))
  (items : list record) :
  length idx = length items ->
  to_rows {| index_names := ns; index := idx;
             columns := map (fun f => (f, map (cell f) items)) names |}
  = map (fun r => map (fun f => (f, cell f r)) names) items.
Proof.
  intros Hlen. unfold to_rows, shape0. cbn [index columns]. rewrite Hlen.
  clear Hlen idx.
  assert (H : forall l : list record,
             map (fun i => map (fun c : string * list value =>
                                  (fst c, nth i (snd c) nan))
                               (map (fun f => (f, map (cell f) l)) names))
                 (seq 0 (length l))
             = map (fun r => map (fun f => (f, cell f r)) names) l).
  { induction l as [| r l IH]; [reflexivity |].
    cbn [length seq map]. f_equal.
    - rewrite map_map. reflexivity.
    - rewrite <- seq_shift, map_map. rewrite <- IH.
      apply map_ext. intros i. rewrite !map_map. reflexivity. }
  apply H.
Qed.

Lemma exploded_scalars (k f : string) (items : list record) :
  (forall r, In r items -> exists a, cell f r = Scalar a) ->
  exploded_index k f items = map (fun r => [cell k r]) items
  /\ exploded_values f items = map (cell f) items.
Proof.
  unfold exploded_index, exploded_values.
  induction items as [| r items IH]; intros H; [split; reflexivity |].
  destruct (H r (or_introl eq_refl)) as [a Ha].
  destruct IH as [IH1 IH2]; [intros r' Hr'; apply H; now right |].
  cbn [flat_map map]. rewrite IH1, IH2, Ha. split; reflexivity.
Qed.

(** X6. A table with items, the row identifier among their attributes, and
    no list in any other column unpacks to exactly one row per item, in the
    order of the items: the item itself, with NaN for every attribute of
    the table that it lacks. *)
Theorem scalar_table_unpacks_to_its_items
  (align_multi : DataFrame -> list (string * Series) -> exn + DataFrame)
  (items : list record) :
  items <> [] ->
  In "ppid_session_dataname" (field_names items) ->
  (forall r f, In r items -> In f (columns_beside_key items) ->
               exists a, cell f r = Scalar a) ->
  exists df,
    unpack_items align_multi items true = inr df
    /\ to_rows df = map (completed_row (columns_beside_key items)) items.
Proof.
  intros Hne Hkey Hscalar.
  rewrite (unpack_items_columns align_multi items Hne Hkey).
  fold (columns_beside_key items).
  destruct (columns_beside_key items) as [| f0 rest] eqn:E.
  - eexists. split; [reflexivity |].
    unfold reset_index. cbn [index_names index columns length seq combine map
                               app fst snd].
    rewrite map_map. cbn [nth].
    apply (to_rows_cells [] ["ppid_session_dataname"]).
    unfold RangeIndex, shape0. cbn [index].
    now rewrite !length_map, length_seq.
  - assert (Hcols : forall f, In f (f0 :: rest) ->
               exploded_index "ppid_session_dataname" f items
               = map (fun r => [cell "ppid_session_dataname" r]) items
               /\ exploded_values f items = map (cell f) items).
    { intros f Hf. apply exploded_scalars. intros r Hr. now apply Hscalar. }
    rewrite aligned_forallb.
    2:{ intros r f Hr Hf.
        destruct (Hscalar r f0 Hr (or_introl eq_refl)) as [a ->].
        destruct (Hscalar r f Hr (or_intror Hf)) as [b ->]. reflexivity. }
    eexists. split; [reflexivity |].
    rewrite (proj1 (Hcols f0 (or_introl eq_refl))).
    unfold reset_index. cbn [index_names index columns length seq combine app
                               fst snd].
    cbn [map]. rewrite (map_map (fun r => [cell "ppid_session_dataname" r])).
    cbn [nth].
    rewrite (proj2 (Hcols f0 (or_introl eq_refl))).
    assert (Hrest : map (fun f => (f, exploded_values f items)) rest
                    = map (fun f => (f, map (cell f) items)) rest).
    { apply map_ext_in. intros f Hf.
      now rewrite (proj2 (Hcols f (or_intror Hf))). }
    rewrite Hrest.
    apply (to_rows_cells [] ("ppid_session_dataname" :: f0 :: rest)).
    unfold RangeIndex, shape0. cbn [index].
    now rewrite !length_map, length_seq.
Qed.

Lemma scalar_table_unpacks_to_its_items_witness :
  [Sample.participant; Sample.participant_without_hand] <> []
  /\ In "ppid_session_dataname"
        (field_names [Sample.participant; Sample.participant_without_hand])
  /\ exists df,
       unpack_items Sample.align
         [Sample.participant; Sample.participant_without_hand] true = inr df
       /\ to_rows df
          = map (completed_row
                   (columns_beside_key
                      [Sample.participant; Sample.participant_without_hand]))
                [Sample.participant; Sample.participant_without_hand].
Proof.
  assert (Hne : [Sample.participant; Sample.participant_without_hand] <> [])
    by discriminate.
  assert (Hkey : In "ppid_session_dataname"
                    (field_names [Sample.participant;
                                  Sample.participant_without_hand]))
    by (vm_compute; tauto).
  split; [exact Hne |]. split; [exact Hkey |].
  apply (scalar_table_unpacks_to_its_items Sample.align
           [Sample.participant; Sample.participant_without_hand] Hne Hkey).
  intros r f Hr Hf. change (In f ["age"; "hand"]) in Hf.
  destruct Hr as [<- | [<- | []]]; destruct Hf as [<- | [<- | []]];
    eexists; reflexivity.
Defined.

(** ** Tables without the key columns *)

Lemma lookup_in_fields (f : string) (r : record) :
  In f (map fst r) -> lookup f r <> None.
Proof.
  intros Hin. apply in_map_iff in Hin. destruct Hin as ([g v] & Hg & Hin).
  cbn [fst] in Hg. subst g. unfold lookup.
  destruct (find _ r) as [fv |] eqn:E; [discriminate |].
  exfalso. apply (find_none _ _ E) in Hin. cbn [fst] in Hin.
  now rewrite String.eqb_refl in Hin.
Qed.

Lemma has_column_from_records (f : string) (items : list record) :
  Forall (fun r => lookup f r = None) items ->
  has_column f (from_records items) = false.
Proof.
  intros Hnone. unfold has_column, from_records. cbn [columns].
  rewrite map_map. cbn [fst]. rewrite map_id.
  destruct (existsb _ _) eqn:E; [| reflexivity]. exfalso.
  apply existsb_exists in E. destruct E as (g & Hg & Heq).
  apply String.eqb_eq in Heq. subst g.
  apply (proj1 (in_uniq f _)) in Hg. apply in_flat_map in Hg.
  destruct Hg as (r & Hr & Hf).
  rewrite Forall_forall in Hnone. now apply (lookup_in_fields f r Hf), Hnone.
Qed.

(** X7. A table with items none of which has the attribute
    [ppid_session_dataname] cannot be unpacked: [set_index] raises
    [KeyError], and the loop body of [download_uxf_tables] lets it through
    after the scan, without a file written or a line printed. *)
Theorem table_without_row_identifier_raises
  (align_multi : DataFrame -> list (string * Series) -> exn + DataFrame)
  (items : list record) :
  items <> [] ->
  Forall (fun r => lookup "ppid_session_dataname" r = None) items ->
  unpack_items align_multi items true = inl KeyError
  /\ forall store name tbl ps fuel out s,
       store name = Some tbl ->
       pages_from tbl None ps ->
       length ps <= S fuel ->
       concat (map Items ps) = items ->
       download_one store align_multi fuel name out s
       = (Raise KeyError, s, scan_calls name ps).
Proof.
  intros Hne Hnone.
  assert (Hraise : unpack_items align_multi items true = inl KeyError).
  { unfold unpack_items. cbv zeta. rewrite shape0_from_records.
    assert (Hpos : (0 <? length items)%nat = true).
    { apply Nat.ltb_lt. destruct items; [congruence | simpl; lia]. }
    rewrite Hpos. cbn [andb]. unfold explode_by, set_index. cbn [filter].
    now rewrite (has_column_from_records _ items Hnone). }
  split; [exact Hraise |].
  intros store name tbl ps fuel out s Hstore Hps Hfuel Hitems.
  unfold download_one, try_except, scan_table_to_df, bind.
  rewrite (scan_items_pages store name tbl Hstore ps fuel s Hps Hfuel).
  rewrite Hitems, Hraise. cbn. now rewrite app_nil_r.
Qed.

Lemma table_without_row_identifier_raises_witness :
  [Sample.anonymous] <> []
  /\ Forall (fun r => lookup "ppid_session_dataname" r = None) [Sample.anonymous]
  /\ unpack_items Sample.align [Sample.anonymous] true = inl KeyError.
Proof.
  assert (Hne : [Sample.anonymous] <> []) by discriminate.
  assert (Hnone : Forall (fun r => lookup "ppid_session_dataname" r = None)
                    [Sample.anonymous])
    by (repeat constructor).
  split; [exact Hne |]. split; [exact Hnone |].
  apply (table_without_row_identifier_raises Sample.align [Sample.anonymous]
           Hne Hnone).
Defined.

(** X8. The tracker table needs both [ppid_session_dataname] and
    [trial_num]: when no item has one of the two, and so when there is no
    item at all, [set_index] raises [KeyError], and [download_tracker_data]
    lets it through after the scan, without a file written or a line
    printed. *)
Theorem tracker_table_without_keys_raises
  (align_multi : DataFrame -> list (string * Series) -> exn + DataFrame)
  (items : list record) :
  Forall (fun r => lookup "ppid_session_dataname" r = None) items
  \/ Forall (fun r => lookup "trial_num" r = None) items ->
  unpack_tracker_items align_multi items = inl KeyError
  /\ forall store localtime tbl ps fuel experiment prefix s,
       store (get_table_name experiment "Trackers" prefix) = Some tbl ->
       pages_from tbl None ps ->
       length ps <= S fuel ->
       concat (map Items ps) = items ->
       download_tracker_data store localtime align_multi fuel experiment prefix s
       = (Raise KeyError, after_clock_reads 1 s,
          scan_calls (get_table_name experiment "Trackers" prefix) ps).
Proof.
  intros Hnone.
  assert (Hraise : unpack_tracker_items align_multi items = inl KeyError).
  { unfold unpack_tracker_items. cbv zeta. unfold explode_by, set_index.
    cbn [filter].
    destruct Hnone as [Hnone | Hnone];
      rewrite (has_column_from_records _ items Hnone); cbn [negb];
      [reflexivity |].
    now destruct (has_column "ppid_session_dataname" (from_records items)). }
  split; [exact Hraise |].
  intros store localtime tbl ps fuel experiment prefix s Hstore Hps Hfuel Hitems.
  unfold download_tracker_data. cbv zeta. unfold bind at 1.
  rewrite get_output_file_name_run. unfold try_except, bind.
  rewrite (scan_items_pages store _ tbl Hstore ps fuel _ Hps Hfuel).
  rewrite Hitems, Hraise. cbn. now rewrite app_nil_r.
Qed.

Lemma tracker_table_without_keys_raises_witness :
  Forall (fun r => lookup "trial_num" r = None) [Sample.participant]
  /\ unpack_tracker_items Sample.align [Sample.participant] = inl KeyError.
Proof.
  assert (Hnone : Forall (fun r => lookup "trial_num" r = None)
                    [Sample.participant])
    by (repeat constructor).
  split; [exact Hnone |].
  apply (tracker_table_without_keys_raises Sample.align [Sample.participant]
           (or_intror Hnone)).
Defined.

(** ** The scanner and the loop body *)

Lemma comprehension_file_names localtime experiment (ts : list string) :
  forall s,
    comprehension (get_output_file_name localtime experiment) ts s
    = (Ok (file_names_from localtime experiment (clock_reads s) ts),
       after_clock_reads (length ts) s, []).
Proof.
  induction ts as [| t ts IH]; intros s.
  - destruct s. reflexivity.
  - cbn [comprehension]. unfold bind at 1. rewrite get_output_file_name_run.
    unfold bind at 1. rewrite IH. unfold ret. cbn [app file_names_from length].
    unfold after_clock_reads. cbn [cwd dirs clock_reads].
    cbn [Nat.add]. now rewrite Nat.add_succ_r.
Qed.

(** X9. [download_uxf_tables] takes all time stamps before the first scan:
    it reads the clock once for every table kind, in the order of the list,
    and then runs the loop with the file names of these readings, however
    long the scans take. *)
Theorem file_names_before_scans
  (store : string -> option table) (localtime : nat -> struct_time)
  (align_multi : DataFrame -> list (string * Series) -> exn + DataFrame)
  (fuel : nat) (experiment prefix : string) (tables : list string)
  (s : process) :
  download_uxf_tables store localtime align_multi fuel experiment tables prefix s
  = download_each store align_multi fuel
      (table_names experiment tables prefix)
      (file_names_from localtime experiment (clock_reads s) tables)
      (after_clock_reads (length tables) s).
Proof.
  unfold download_uxf_tables. cbv zeta. unfold bind.
  rewrite comprehension_file_names.
  now destruct (download_each _ _ _ _ _ _) as [[r s'] evs].
Qed.

Lemma scan_loop_endless store name tbl :
  store name = Some tbl ->
  (forall start, LastEvaluatedKey (tbl start) <> None) ->
  forall fuel start items s,
  exists evs,
    scan_loop store fuel name (tbl start) items s = (Diverge, s, evs)
    /\ length evs = fuel.
Proof.
  intros Hstore Hmore. induction fuel as [| fuel IH]; intros start items s.
  - exists []. cbn [scan_loop].
    destruct (LastEvaluatedKey (tbl start)) eqn:E; [| now apply Hmore in E].
    split; reflexivity.
  - cbn [scan_loop].
    destruct (LastEvaluatedKey (tbl start)) as [k |] eqn:E;
      [| now apply Hmore in E].
    unfold bind. rewrite (table_scan_found store name tbl Hstore).
    destruct (IH (Some k) (items ++ Items (tbl (Some k))) s) as (evs & Hrun & Hlen).
    rewrite Hrun. exists (Scan name (Some k) :: evs). split; [reflexivity |].
    simpl. now rewrite Hlen.
Qed.

(** X10. The loop of the scanner has no bound of its own: on a table every
    page of which carries a continuation token it never returns, whatever
    the fuel, after one more scan call than the fuel allows continuations,
    and without any effect on the process. *)
Theorem endless_pages_never_return
  (store : string -> option table) (name : string) (tbl : table)
  (fuel : nat) (s : process) :
  store name = Some tbl ->
  (forall start, LastEvaluatedKey (tbl start) <> None) ->
  exists evs,
    scan_items store fuel name s = (Diverge, s, evs)
    /\ length evs = S fuel.
Proof.
  intros Hstore Hmore. unfold scan_items, bind.
  rewrite (table_scan_found store name tbl Hstore).
  destruct (scan_loop_endless store name tbl Hstore Hmore fuel None
              (Items (tbl None)) s) as (evs & Hrun & Hlen).
  rewrite Hrun. exists (Scan name None :: evs). split; [reflexivity |].
  simpl. now rewrite Hlen.
Qed.

Lemma endless_pages_never_return_witness :
  Sample.endless_store "UXFData.Exp1.Settings" = Some Sample.endless
  /\ (forall start, LastEvaluatedKey (Sample.endless start) <> None)
  /\ exists evs,
       scan_items Sample.endless_store 7 "UXFData.Exp1.Settings" Sample.home
       = (Diverge, Sample.home, evs)
       /\ length evs = 8.
Proof.
  assert (Hmore : forall start, LastEvaluatedKey (Sample.endless start) <> None)
    by (intros start; discriminate).
  split; [reflexivity |]. split; [exact Hmore |].
  apply (endless_pages_never_return Sample.endless_store
           "UXFData.Exp1.Settings" Sample.endless 7 Sample.home eq_refl Hmore).
Defined.

(** X11. The loop body on a table that exists: when the items of its pages
    unpack to the frame [df], the body makes the scan calls of the pages,
    then writes [df] to the file, tab-separated, and prints the count of its
    rows, or, when [df] has no rows, writes nothing and prints that there is
    no data; it returns normally and leaves the process as it was. *)
Theorem download_one_writes_the_frame
  (store : string -> option table)
  (align_multi : DataFrame -> list (string * Series) -> exn + DataFrame)
  (name out : string) (tbl : table) (ps : list response) (df : DataFrame)
  (fuel : nat) (s : process) :
  store name = Some tbl ->
  pages_from tbl None ps ->
  length ps <= S fuel ->
  unpack_items align_multi (concat (map Items ps)) true = inr df ->
  download_one store align_multi fuel name out s
  = (Ok tt, s, scan_calls name ps ++ save_events df out).
Proof.
  intros Hstore Hps Hfuel Hdf.
  unfold download_one, try_except, scan_table_to_df, bind.
  rewrite (scan_items_pages store name tbl Hstore ps fuel s Hps Hfuel).
  rewrite Hdf. cbn [lift]. unfold ret. rewrite app_nil_r.
  unfold save_dataframe, save_events, print, bind, emit.
  now destruct (0 <? shape0 df)%nat.
Qed.

Lemma download_one_writes_the_frame_witness :
  exists df,
    unpack_items Sample.align (concat (map Items Sample.pages)) true = inr df
    /\ shape0 df = 12
    /\ download_one Sample.store Sample.align 2 "UXFData.Exp1.TrialResults"
         "out.csv" Sample.home
       = (Ok tt, Sample.home,
          scan_calls "UXFData.Exp1.TrialResults" Sample.pages
            ++ save_events df "out.csv").
Proof.
  assert (Hps : pages_from Sample.three_pages None Sample.pages).
  { apply (pages_next Sample.three_pages None "p1_s2"); [reflexivity |].
    apply (pages_next Sample.three_pages (Some "p1_s2") "p2_s1"); [reflexivity |].
    apply (pages_last Sample.three_pages (Some "p2_s1")). reflexivity. }
  eexists. split; [vm_compute; reflexivity |]. split; [reflexivity |].
  apply (download_one_writes_the_frame Sample.store Sample.align
           "UXFData.Exp1.TrialResults" "out.csv" Sample.three_pages Sample.pages);
    [reflexivity | exact Hps | simpl; lia | vm_compute; reflexivity].
Defined.

(** ** Exceptions that escape *)

Lemma raises_only_bind {A B} (E : exn -> Prop) (m : M A) (k : A -> M B) :
  raises_only E m -> (forall a, raises_only E (k a)) -> raises_only E (bind m k).
Proof.
  intros Hm Hk s e s' evs H. unfold bind in H.
  destruct (m s) as [[[a | e1 |] s1] t1] eqn:Em.
  - destruct (k a s1) as [[r2 s2] t2] eqn:Ek. inversion H; subst.
    eapply Hk; eauto.
  - inversion H; subst. eapply Hm; eauto.
  - discriminate.
Qed.

Lemma raises_only_for_each {A} (E : exn -> Prop) (body : A -> M unit)
  (l : list A) :
  (forall x, raises_only E (body x)) -> raises_only E (for_each body l).
Proof.
  intros H. induction l as [| x l IH]; cbn [for_each].
  - intros s e s' evs Hrun. discriminate.
  - apply raises_only_bind; [apply H | intros _; exact IH].
Qed.

(** The unpacking of the default tables ends in a frame, in [KeyError] or in
    [ValueError]. *)
Lemma unpack_items_errors align_multi (items : list record) (unpack : bool)
  (e : exn) :
  unpack_items align_multi items unpack = inl e -> unpack_error e.
Proof.
  unfold unpack_items, unpack_error. cbv zeta.
  destruct (unpack && _); [| discriminate].
  unfold explode_by, set_index.
  destruct (filter _ ["ppid_session_dataname"]) as [| k ks].
  - unfold apply_explode. cbn [index_names columns length Nat.leb].
    destruct (_ || _); [discriminate |].
    destruct (map _ _) as [| r0 rest]; [discriminate |].
    destruct (forallb _ rest); [discriminate |].
    intros H. inversion H. now right.
  - intros H. inversion H. now left.
Qed.

Lemma raises_only_impl {A} (E E' : exn -> Prop) (m : M A) :
  (forall e, E e -> E' e) -> raises_only E m -> raises_only E' m.
Proof. intros Himp Hm s e s' evs H. eapply Himp, Hm, H. Qed.

Lemma raises_only_ret {A} (E : exn -> Prop) (a : A) : raises_only E (ret a).
Proof. intros s e s' evs H. discriminate. Qed.

Lemma raises_only_emit (E : exn -> Prop) (ev : event) : raises_only E (emit ev).
Proof. intros s e s' evs H. discriminate. Qed.

Lemma raises_only_raise {A} (E : exn -> Prop) (e : exn) :
  E e -> raises_only E (@raise A e).
Proof. intros He s e' s' evs H. inversion H; subst. exact He. Qed.

Lemma raises_only_try_except {A} (E E' : exn -> Prop) (body : M A) handles
  (handler : M A) :
  raises_only E' body ->
  (forall e, E' e -> handles e = false -> E e) ->
  raises_only E handler ->
  raises_only E (try_except body handles handler).
Proof.
  intros Hb Hpass Hh s e s' evs H. unfold try_except in H.
  destruct (body s) as [[[a | e1 |] s1] t1] eqn:Eb; try discriminate.
  destruct (handles e1) eqn:Ehandles.
  - destruct (handler s1) as [[r2 s2] t2] eqn:Eh. inversion H; subst.
    eapply Hh; eauto.
  - inversion H; subst. apply Hpass; [eapply Hb; eauto | exact Ehandles].
Qed.

Lemma raises_only_table_scan store name start :
  raises_only (fun e => e = ResourceNotFoundException)
              (table_scan store name start).
Proof.
  unfold table_scan. apply raises_only_bind; [apply raises_only_emit |].
  intros _. destruct (store name);
    [apply raises_only_ret | now apply raises_only_raise].
Qed.

Lemma raises_only_scan_items store fuel name :
  raises_only (fun e => e = ResourceNotFoundException)
              (scan_items store fuel name).
Proof.
  assert (Hloop : forall f resp items,
             raises_only (fun e => e = ResourceNotFoundException)
                         (scan_loop store f name resp items)).
  { induction f as [| f IH]; intros resp items; cbn [scan_loop];
      destruct (LastEvaluatedKey resp); try apply raises_only_ret.
    - intros s e s' evs H. discriminate.
    - apply raises_only_bind; [apply raises_only_table_scan |].
      intros resp'. apply IH. }
  unfold scan_items. apply raises_only_bind; [apply raises_only_table_scan |].
  intros resp. apply Hloop.
Qed.

Lemma raises_only_save_dataframe (E : exn -> Prop) df file_name sep :
  raises_only E (save_dataframe df file_name sep).
Proof.
  unfold save_dataframe, print. destruct (0 <? shape0 df)%nat.
  - apply raises_only_bind; [apply raises_only_emit |].
    intros _. apply raises_only_emit.
  - apply raises_only_emit.
Qed.

Lemma raises_only_download_one store align_multi fuel tbl out :
  raises_only unpack_error (download_one store align_multi fuel tbl out).
Proof.
  unfold download_one.
  apply (raises_only_try_except unpack_error
           (fun e => e = ResourceNotFoundException \/ unpack_error e)).
  - apply raises_only_bind.
    + unfold scan_table_to_df. apply raises_only_bind.
      * eapply raises_only_impl; [| apply raises_only_scan_items].
        intros e He. now left.
      * intros items.
        destruct (unpack_items align_multi items true) as [e |] eqn:E;
          [| apply raises_only_ret].
        apply raises_only_raise. right.
        exact (unpack_items_errors align_multi items true e E).
    + intros data. apply raises_only_save_dataframe.
  - intros e [-> | He] Hhandles; [discriminate | exact He].
  - apply raises_only_emit.
Qed.

(** X12. A table that is not found never ends [download_uxf_tables]: of
    the exceptions of the store and of pandas that the loop can meet, the
    only ones it lets through are those of the unpacking, [KeyError] and
    [ValueError]. *)
Theorem download_uxf_tables_raises_unpack_errors
  (store : string -> option table) (localtime : nat -> struct_time)
  (align_multi : DataFrame -> list (string * Series) -> exn + DataFrame)
  (fuel : nat) (experiment prefix : string) (tables : list string)
  (s s' : process) (e : exn) (evs : list event) :
  download_uxf_tables store localtime align_multi fuel experiment tables prefix s
    = (Raise e, s', evs) ->
  e = KeyError \/ e = ValueError.
Proof.
  revert s e s' evs. unfold download_uxf_tables. cbv zeta.
  apply (raises_only_bind unpack_error).
  - intros s e s' evs H. rewrite comprehension_file_names in H. discriminate.
  - intros fnames. unfold download_each.
    apply (raises_only_for_each unpack_error). intros [tbl out].
    apply raises_only_download_one.
Qed.

Lemma download_uxf_tables_raises_unpack_errors_witness :
  fst (fst (download_uxf_tables Sample.anonymous_store Sample.clock
              Sample.align 2 "Exp1" TABLES PREFIX Sample.home))
  = Raise KeyError
  /\ (KeyError = KeyError \/ KeyError = ValueError).
Proof.
  split; [vm_compute; reflexivity |].
  apply (download_uxf_tables_raises_unpack_errors Sample.anonymous_store
           Sample.clock Sample.align 2 "Exp1" PREFIX TABLES Sample.home
           (snd (fst (download_uxf_tables Sample.anonymous_store Sample.clock
                        Sample.align 2 "Exp1" TABLES PREFIX Sample.home)))
           KeyError
           (snd (download_uxf_tables Sample.anonymous_store Sample.clock
                   Sample.align 2 "Exp1" TABLES PREFIX Sample.home))).
  vm_compute. reflexivity.
Defined.

(** ** The working directory *)

Section Keeps.

Lemma keeps_ret {A} (a : A) : keeps_directories (ret a).
Proof. intros s r s' evs H. inversion H. auto. Qed.

Lemma keeps_raise {A} (e : exn) : keeps_directories (@raise A e).
Proof. intros s r s' evs H. inversion H. auto. Qed.

Lemma keeps_diverge {A} : keeps_directories (@diverge A).
Proof. intros s r s' evs H. inversion H. auto. Qed.

Lemma keeps_emit (e : event) : keeps_directories (emit e).
Proof. intros s r s' evs H. inversion H. auto. Qed.

Lemma keeps_lift {A} (x : exn + A) : keeps_directories (lift x).
Proof. destruct x; [apply keeps_raise | apply keeps_ret]. Qed.

Lemma keeps_bind {A B} (m : M A) (k : A -> M B) :
  keeps_directories m -> (forall a, keeps_directories (k a)) ->
  keeps_directories (bind m k).
Proof.
  intros Hm Hk s r s' evs H. unfold bind in H.
  destruct (m s) as [[[a | e |] s1] t1] eqn:E.
  - destruct (k a s1) as [[r2 s2] t2] eqn:E2. inversion H; subst.
    destruct (Hm _ _ _ _ E) as [Hc Hd]. destruct (Hk a _ _ _ _ E2) as [Hc2 Hd2].
    split; congruence.
  - inversion H; subst. eapply Hm; eauto.
  - inversion H; subst. eapply Hm; eauto.
Qed.

Lemma keeps_try_except {A} (body : M A) handles (handler : M A) :
  keeps_directories body -> keeps_directories handler ->
  keeps_directories (try_except body handles handler).
Proof.
  intros Hb Hh s r s' evs H. unfold try_except in H.
  destruct (body s) as [[[a | e |] s1] t1] eqn:E.
  - inversion H; subst. eapply Hb; eauto.
  - destruct (handles e).
    + destruct (handler s1) as [[r2 s2] t2] eqn:E2. inversion H; subst.
      destruct (Hb _ _ _ _ E) as [Hc Hd]. destruct (Hh _ _ _ _ E2) as [Hc2 Hd2].
      split; congruence.
    + inversion H; subst. eapply Hb; eauto.
  - inversion H; subst. eapply Hb; eauto.
Qed.

Lemma keeps_for_each {A} (body : A -> M unit) (l : list A) :
  (forall x, keeps_directories (body x)) -> keeps_directories (for_each body l).
Proof.
  intros H. induction l as [| x l IH]; cbn [for_each].
  - apply keeps_ret.
  - apply keeps_bind; [apply H | intros _; exact IH].
Qed.

Lemma keeps_comprehension {A B} (f : A -> M B) (l : list A) :
  (forall x, keeps_directories (f x)) -> keeps_directories (comprehension f l).
Proof.
  intros H. induction l as [| x l IH]; cbn [comprehension].
  - apply keeps_ret.
  - apply keeps_bind; [apply H |]. intros y.
    apply keeps_bind; [apply IH |]. intros ys. apply keeps_ret.
Qed.

Variable store : string -> option table.
Variable localtime : nat -> struct_time.
Variable align_multi : DataFrame -> list (string * Series) -> exn + DataFrame.
Variable fuel : nat.

Lemma keeps_get_output_file_name e t :
  keeps_directories (get_output_file_name localtime e t).
Proof. intros s r s' evs H. inversion H. auto. Qed.

Lemma keeps_scan_items name : keeps_directories (scan_items store fuel name).
Proof.
  assert (Hscan : forall start, keeps_directories (table_scan store name start)).
  { intros start. unfold table_scan. apply keeps_bind; [apply keeps_emit |].
    intros _. destruct (store name); [apply keeps_ret | apply keeps_raise]. }
  assert (Hloop : forall f resp items,
             keeps_directories (scan_loop store f name resp items)).
  { induction f as [| f IH]; intros resp items; cbn [scan_loop];
      destruct (LastEvaluatedKey resp);
      try apply keeps_ret; try apply keeps_diverge.
    apply keeps_bind; [apply Hscan | intros resp'; apply IH]. }
  unfold scan_items. apply keeps_bind; [apply Hscan | intros resp; apply Hloop].
Qed.

Lemma keeps_save_dataframe df file_name sep :
  keeps_directories (save_dataframe df file_name sep).
Proof.
  unfold save_dataframe, print. destruct (0 <? shape0 df)%nat.
  - apply keeps_bind; [apply keeps_emit | intros _; apply keeps_emit].
  - apply keeps_emit.
Qed.

Lemma keeps_scan_table_to_df name unpack :
  keeps_directories (scan_table_to_df store align_multi fuel name unpack).
Proof.
  unfold scan_table_to_df. apply keeps_bind; [apply keeps_scan_items |].
  intros items. apply keeps_lift.
Qed.

Lemma keeps_download_one tbl out :
  keeps_directories (download_one store align_multi fuel tbl out).
Proof.
  unfold download_one. apply keeps_try_except.
  - apply keeps_bind; [apply keeps_scan_table_to_df |].
    intros data. apply keeps_save_dataframe.
  - apply keeps_emit.
Qed.

Lemma keeps_downloads (o : options) :
  keeps_directories (downloads store localtime align_multi fuel o).
Proof.
  unfold downloads. destruct (p o); cbn [negb].
  - apply keeps_bind; [apply keeps_emit |]. intros _.
    apply keeps_bind; [apply keeps_scan_table_to_df |]. intros df.
    apply keeps_bind; [apply keeps_emit |]. intros _.
    apply keeps_bind; [apply keeps_get_output_file_name |]. intros fname.
    apply keeps_save_dataframe.
  - apply keeps_bind; [apply keeps_emit |]. intros _.
    apply keeps_bind.
    { unfold download_uxf_tables. cbv zeta.
      apply keeps_bind.
      - apply keeps_comprehension. intros t. apply keeps_get_output_file_name.
      - intros fnames. apply keeps_for_each. intros pr. apply keeps_download_one. }
    intros _. apply keeps_bind.
    { destruct (tracker o); [| apply keeps_ret].
      unfold download_tracker_data. cbv zeta.
      apply keeps_bind; [apply keeps_get_output_file_name |]. intros fname.
      apply keeps_try_except.
      - apply keeps_bind; [apply keeps_scan_items |]. intros items.
        apply keeps_bind; [apply keeps_lift |]. intros res.
        apply keeps_save_dataframe.
      - apply keeps_emit. }
    intros _. apply keeps_emit.
Qed.

Lemma keeps_session_and_downloads (o : options) :
  keeps_directories (session_and_downloads store localtime align_multi fuel o).
Proof.
  unfold session_and_downloads. apply keeps_bind.
  { unfold session_arguments.
    destruct (access o), (secret o); try apply keeps_ret;
      (apply keeps_bind; [apply keeps_emit | intros _; apply keeps_raise]). }
  intros sess_args. apply keeps_bind; [apply keeps_emit |]. intros _.
  apply keeps_bind; [apply keeps_emit |]. intros _. apply keeps_downloads.
Qed.

(** The script in three parts. *)
Lemma main_split (o : options) (s : process) :
  main store localtime align_multi fuel o s
  = (prev_wd <- enter_folder o ;;
     session_and_downloads store localtime align_multi fuel o ;;
     leave_folder prev_wd) s.
Proof.
  unfold main, session_and_downloads, leave_folder.
  apply bind_ext. intros prev_wd s1.
  rewrite bind_assoc. apply bind_ext. intros sess_args s2.
  rewrite bind_assoc. apply bind_ext. intros _ s3.
  rewrite bind_assoc. apply bind_ext. intros _ s4. reflexivity.
Qed.

Lemma emits_session_and_downloads (P : event -> Prop) (o : options) :
  (forall line, P (Print line)) ->
  (forall df, P (PrintFrame df)) ->
  (forall file_name sep df, P (ToCsv file_name sep df)) ->
  (forall sess_args, P (Session sess_args)) ->
  (forall service, P (Resource service)) ->
  (forall name start, P (Scan name start)) ->
  emits P (session_and_downloads store localtime align_multi fuel o).
Proof.
  intros Hprint Hframe Hcsv Hsess Hres Hscan. unfold session_and_downloads.
  apply emits_bind; [now apply emits_session_arguments |]. intros sess_args.
  apply emits_bind; [apply emits_emit, Hsess |]. intros _.
  apply emits_bind; [apply emits_emit, Hres |]. intros _.
  apply emits_downloads; auto.
Qed.

End Keeps.

(** X13. Without the subfolder flag the script never creates a directory
    and never changes the working directory: however the run ends, it emits
    neither of the two events, and the working directory and the directories
    that exist are those of the start. *)
Theorem without_folder_flag_directories_untouched
  (store : string -> option table) (localtime : nat -> struct_time)
  (align_multi : DataFrame -> list (string * Series) -> exn + DataFrame)
  (fuel : nat) (o : options) (s s' : process) (r : outcome unit)
  (evs : list event) :
  folder o = false ->
  main store localtime align_multi fuel o s = (r, s', evs) ->
  cwd s' = cwd s
  /\ dirs s' = dirs s
  /\ Forall (fun e => is_mkdir e = false /\ is_chdir e = false) evs.
Proof.
  intros Hf Hrun. rewrite main_split in Hrun.
  unfold enter_folder in Hrun. rewrite Hf in Hrun. rewrite bind_ret_l in Hrun.
  cbn [leave_folder] in Hrun.
  assert (Hkeeps : keeps_directories
            (session_and_downloads store localtime align_multi fuel o ;; ret tt)).
  { apply keeps_bind; [apply keeps_session_and_downloads |].
    intros _. apply keeps_ret. }
  destruct (Hkeeps _ _ _ _ Hrun) as [Hc Hd].
  split; [exact Hc |]. split; [exact Hd |].
  revert Hrun. apply emits_bind.
  - apply emits_session_and_downloads; intros; split; reflexivity.
  - intros _. apply emits_ret.
Qed.

Lemma without_folder_flag_directories_untouched_witness :
  folder Sample.opts_tracker = false
  /\ cwd (snd (fst (main Sample.store Sample.clock Sample.align 5
                      Sample.opts_tracker Sample.home)))
     = cwd Sample.home
  /\ dirs (snd (fst (main Sample.store Sample.clock Sample.align 5
                       Sample.opts_tracker Sample.home)))
     = dirs Sample.home
  /\ Forall (fun e => is_mkdir e = false /\ is_chdir e = false)
            (snd (main Sample.store Sample.clock Sample.align 5
                    Sample.opts_tracker Sample.home)).
Proof.
  split; [reflexivity |].
  apply (without_folder_flag_directories_untouched Sample.store Sample.clock
           Sample.align 5 Sample.opts_tracker Sample.home
           (snd (fst (main Sample.store Sample.clock Sample.align 5
                        Sample.opts_tracker Sample.home)))
           (fst (fst (main Sample.store Sample.clock Sample.align 5
                        Sample.opts_tracker Sample.home)))
           (snd (main Sample.store Sample.clock Sample.align 5
                   Sample.opts_tracker Sample.home)));
    [reflexivity | vm_compute; reflexivity].
Defined.

Lemma enter_folder_steps (o : options) (s : process) :
  folder o = true ->
  enter_folder o s
  = (Ok (Some (cwd s)),
     {| cwd := os_path_join (cwd s) (experiment o);
        dirs := if existsb (String.eqb (os_path_join (cwd s) (experiment o)))
                           (dirs s)
                then dirs s
                else os_path_join (cwd s) (experiment o) :: dirs s;
        clock_reads := clock_reads s |},
     (if existsb (String.eqb (os_path_join (cwd s) (experiment o))) (dirs s)
      then []
      else [Mkdir (os_path_join (cwd s) (experiment o))])
     ++ [Chdir (os_path_join (cwd s) (experiment o))]).
Proof.
  intros Hf. unfold enter_folder. rewrite Hf.
  unfold bind, os_getcwd, os_path_isdir, os_mkdir, os_chdir, ret.
  cbn [cwd dirs clock_reads].
  now destruct (existsb _ (dirs s)).
Qed.



(** ** The modes of the script *)

(** X15. In the mode [-p] the only table ever scanned is the participant
    details of the experiment, however the run ends and whether or not the
    tracker flag is set. *)
Theorem participant_mode_scans_one_table
  (store : string -> option table) (localtime : nat -> struct_time)
  (align_multi : DataFrame -> list (string * Series) -> exn + DataFrame)
  (fuel : nat) (o : options) (s s' : process) (r : outcome unit)
  (evs : list event) :
  p o = true ->
  main store localtime align_multi fuel o s = (r, s', evs) ->
  Forall (fun e => forall name,
              scanned_table e = Some name ->
              name = get_table_name (experiment o) "ParticipantDetails" PREFIX)
         evs.
Proof.
  intros Hp. revert s r s' evs. unfold main.
  apply emits_bind.
  { apply emits_enter_folder; intros path name H; discriminate. }
  intros prev_wd.
  apply emits_bind.
  { apply emits_session_arguments. intros line name H. discriminate. }
  intros sess_args.
  apply emits_bind; [apply emits_emit; intros name H; discriminate |]. intros _.
  apply emits_bind; [apply emits_emit; intros name H; discriminate |]. intros _.
  apply emits_bind.
  { unfold downloads. rewrite Hp. cbn [negb].
    apply emits_bind; [apply emits_emit; intros name H; discriminate |].
    intros _. apply emits_bind.
    { apply emits_scan_table_to_df. intros start name H. now inversion H. }
    intros df.
    apply emits_bind; [apply emits_emit; intros name H; discriminate |].
    intros _. apply emits_bind; [apply emits_get_output_file_name |].
    intros fname. apply emits_save_dataframe; intros; discriminate. }
  intros _. destruct prev_wd; [| apply emits_ret].
  apply emits_os_chdir. intros name H. discriminate.
Qed.

Lemma participant_mode_scans_one_table_witness :
  p Sample.opts_participant = true
  /\ tracker Sample.opts_participant = true
  /\ Forall (fun e => forall name,
                 scanned_table e = Some name ->
                 name = get_table_name (experiment Sample.opts_participant)
                          "ParticipantDetails" PREFIX)
            (snd (main Sample.store Sample.clock Sample.align 5
                    Sample.opts_participant Sample.home)).
Proof.
  split; [reflexivity |]. split; [reflexivity |].
  apply (participant_mode_scans_one_table Sample.store Sample.clock
           Sample.align 5 Sample.opts_participant Sample.home
           (snd (fst (main Sample.store Sample.clock Sample.align 5
                        Sample.opts_participant Sample.home)))
           (fst (fst (main Sample.store Sample.clock Sample.align 5
                        Sample.opts_participant Sample.home)))
           (snd (main Sample.store Sample.clock Sample.align 5
                   Sample.opts_participant Sample.home)));
    [reflexivity | vm_compute; reflexivity].
Defined.

Lemma session_arguments_ok (o : options) :
  ~ partial_credentials o ->
  exists sess_args, forall s, session_arguments o s = (Ok sess_args, s, []).
Proof.
  intros Hfull. unfold session_arguments, partial_credentials in *.
  destruct (access o) as [a |], (secret o) as [k |].
  - eexists. intros s. reflexivity.
  - exfalso. apply Hfull. left. split; [discriminate | reflexivity].
  - exfalso. apply Hfull. right. split; [reflexivity | discriminate].
  - eexists. intros s. reflexivity.
Qed.

Lemma enter_folder_ok (o : options) (s : process) :
  exists prev_wd s1 t1,
    enter_folder o s = (Ok prev_wd, s1, t1)
    /\ Forall (fun e => is_to_csv e = false) t1.
Proof.
  destruct (folder o) eqn:Hf.
  - rewrite (enter_folder_steps o s Hf). do 3 eexists. split; [reflexivity |].
    destruct (existsb _ (dirs s)); repeat constructor.
  - unfold enter_folder. rewrite Hf. do 3 eexists. split; [reflexivity |].
    constructor.
Qed.

(** X16. The mode [-p] does not catch a table that is not found: when the
    participant details of the experiment do not exist and the credentials
    are consistent, the run ends in [ResourceNotFoundException] right after
    its first scan call, exit status 1, where the default mode would print
    that the table is skipped. *)
Theorem participant_mode_table_not_found_is_fatal
  (store : string -> option table) (localtime : nat -> struct_time)
  (align_multi : DataFrame -> list (string * Series) -> exn + DataFrame)
  (fuel : nat) (o : options) (s : process) :
  p o = true ->
  ~ partial_credentials o ->
  store (get_table_name (experiment o) "ParticipantDetails" PREFIX) = None ->
  exists s' evs,
    main store localtime align_multi fuel o s
    = (Raise ResourceNotFoundException, s',
       evs ++ [Scan (get_table_name (experiment o) "ParticipantDetails" PREFIX)
                 None])
    /\ Forall (fun e => scanned_table e = None) evs
    /\ exit_status ResourceNotFoundException = 1%Z.
Proof.
  intros Hp Hfull Hmissing.
  destruct (session_arguments_ok o Hfull) as [sess_args Hargs].
  destruct (enter_folder_ok o s) as (prev_wd & s1 & t1 & Henter & _).
  assert (Ht1 : Forall (fun e => scanned_table e = None) t1).
  { revert Henter. apply emits_enter_folder; reflexivity. }
  rewrite main_split. unfold bind at 1. rewrite Henter.
  unfold session_and_downloads, bind. rewrite Hargs.
  unfold emit, downloads. rewrite Hp. cbn [negb].
  unfold print, emit, scan_table_to_df, scan_items, table_scan, bind, emit.
  rewrite Hmissing. cbn.
  exists s1. eexists (t1 ++ [_; _; _]). split.
  - rewrite <- app_assoc. reflexivity.
  - split; [| reflexivity]. apply Forall_app. split; [exact Ht1 |].
    repeat constructor.
Qed.

Lemma participant_mode_table_not_found_is_fatal_witness :
  p Sample.opts_participant_unknown = true
  /\ ~ partial_credentials Sample.opts_participant_unknown
  /\ Sample.store (get_table_name (experiment Sample.opts_participant_unknown)
                     "ParticipantDetails" PREFIX) = None
  /\ exists s' evs,
       main Sample.store Sample.clock Sample.align 5
         Sample.opts_participant_unknown Sample.home
       = (Raise ResourceNotFoundException, s',
          evs ++ [Scan (get_table_name
                          (experiment Sample.opts_participant_unknown)
                          "ParticipantDetails" PREFIX) None])
       /\ Forall (fun e => scanned_table e = None) evs
       /\ exit_status ResourceNotFoundException = 1%Z.
Proof.
  assert (Hfull : ~ partial_credentials Sample.opts_participant_unknown).
  { intros [[H _] | [_ H]]; apply H; reflexivity. }
  split; [reflexivity |]. split; [exact Hfull |]. split; [reflexivity |].
  apply (participant_mode_table_not_found_is_fatal Sample.store Sample.clock
           Sample.align 5 Sample.opts_participant_unknown Sample.home
           eq_refl Hfull eq_refl).
Defined.

(** ** Runs that complete *)





Section Missing.

Variable store : string -> option table.
Variable localtime : nat -> struct_time.
Variable align_multi : DataFrame -> list (string * Series) -> exn + DataFrame.
Variable fuel : nat.





End Missing.


(** X18. The session never gets half a key pair: when the session
    parameters are built, they hold the access key and the secret key of
    the command line if both were given, and neither of the two parameters
    otherwise; building them has no effect on the process. *)
Theorem session_keys_come_in_pairs
  (o : options) (s s' : process) (sess_args : list (string * string))
  (evs : list event) :
  session_arguments o s = (Ok sess_args, s', evs) ->
  s' = s /\ evs = []
  /\ (forall a k, access o = Some a -> secret o = Some k ->
                  In ("aws_access_key_id", a) sess_args
                  /\ In ("aws_secret_access_key", k) sess_args)
  /\ (access o = None \/ secret o = None ->
      ~ In "aws_access_key_id" (map fst sess_args)
      /\ ~ In "aws_secret_access_key" (map fst sess_args)).
Proof.
  unfold session_arguments, region_args, profile_args. intros H.
  destruct (access o) as [a |], (secret o) as [k |];
    cbn in H; inversion H; subst; clear H;
    (split; [reflexivity |]); (split; [reflexivity |]); split.
  - intros a' k' Ha Hk. inversion Ha; inversion Hk; subst.
    split; apply in_or_app; right; simpl; auto.
  - intros [Hn | Hn]; discriminate.
  - intros a' k' Ha Hk. discriminate.
  - intros _. destruct (region o), (profile o); simpl;
      split; intros Hin; intuition discriminate.
Qed.

Lemma session_keys_come_in_pairs_witness :
  session_arguments Sample.opts_unknown Sample.home
  = (Ok [("region_name", "eu-west-1"); ("profile_name", "lab");
         ("aws_access_key_id", "AKIAEXAMPLE");
         ("aws_secret_access_key", "s3cr3t")], Sample.home, [])
  /\ In ("aws_access_key_id", "AKIAEXAMPLE")
        [("region_name", "eu-west-1"); ("profile_name", "lab");
         ("aws_access_key_id", "AKIAEXAMPLE");
         ("aws_secret_access_key", "s3cr3t")].
Proof.
  split; [reflexivity |].
  destruct (session_keys_come_in_pairs Sample.opts_unknown Sample.home
              Sample.home
              [("region_name", "eu-west-1"); ("profile_name", "lab");
               ("aws_access_key_id", "AKIAEXAMPLE");
               ("aws_secret_access_key", "s3cr3t")] [] eq_refl)
    as (_ & _ & Hboth & _).
  exact (proj1 (Hboth "AKIAEXAMPLE" "s3cr3t" eq_refl eq_refl)).
Defined.
